(** * Call-session registry and event fan-out of the dashboard backend

    A shallow embedding of [ConnectionManager] and of the HTTP handlers
    [start_call], [transfer_call], [end_call], [get_call] and [get_calls]
    of [dashboard_backend.py].

    Modelling choices:
    - Timestamps, durations, volumes and confidences (Python floats) are
      [Z]; the code only stores, subtracts and sums them.
    - [manager.call_data] (a dict) is a [gmap string CallData];
      [manager.call_history] is a list; [active_connections] (a set) is a
      list of observer handles in the set's iteration order.
    - A handler runs in an error-and-state monad: a raised exception
      ([HTTPException]) keeps every mutation made before the raise, as in
      Python.
    - The outside world (uuid4, [datetime.now()], the LiveKit calls and the
      websocket sends) enters as arguments: the fresh uuid, the sampled
      time and the outcome of each LiveKit request are arguments of the
      handler; whether a send to an observer succeeds is the parameter
      [send_ok] of the section [Backend].  Every LiveKit request issued is
      logged in the state, so that the number of attempts is observable. *)

From stdpp Require Import base gmap strings list fin_maps.
From Stdlib Require Import ZArith QArith.

Open Scope Z_scope.

(** ** Data model *)

Inductive CallStatus :=
| IDLE | DIALING | RINGING | CONNECTED | TALKING | ON_HOLD
| TRANSFERRING | ENDED | FAILED.

Inductive SpeakerRole := AGENT | CUSTOMER.

Record TranscriptMessage := mkTranscriptMessage {
  tm_id : string;
  speaker : SpeakerRole;
  text : string;
  timestamp : Z;
  confidence : Z;
  sentiment : string;
  emotion : option string
}.

Record AudioMetrics := mkAudioMetrics {
  am_timestamp : Z;
  agent_volume : Z;
  customer_volume : Z;
  agent_speaking : bool;
  customer_speaking : bool;
  background_noise_level : Z
}.

Record CallData := mkCallData {
  call_id : string;
  phone_number : string;
  customer_name : string;
  status : CallStatus;
  start_time : Z;
  end_time : option Z;
  duration : Z;
  transcript : list TranscriptMessage;
  audio_metrics : list AudioMetrics;
  sentiment_scores : list (string * Z);
  objections_count : Z;
  objections : list string;
  questions_asked : Z;
  transfer_to : option string;
  outcome : option string;
  recording_url : option string;
  room_name : option string
}.

(** One entry of the [data] dict of [update_call_status]: the key with
    the value it carries.  [PUnknown k] is a key [k] for which
    [hasattr(call, k)] is false; such keys are skipped. *)
Inductive Patch :=
| PCallId (v : string)
| PPhoneNumber (v : string)
| PCustomerName (v : string)
| PStatus (v : CallStatus)
| PStartTime (v : Z)
| PEndTime (v : option Z)
| PDuration (v : Z)
| PTranscript (v : list TranscriptMessage)
| PAudioMetrics (v : list AudioMetrics)
| PSentimentScores (v : list (string * Z))
| PObjectionsCount (v : Z)
| PObjections (v : list string)
| PQuestionsAsked (v : Z)
| PTransferTo (v : option string)
| POutcome (v : option string)
| PRecordingUrl (v : option string)
| PRoomName (v : option string)
| PUnknown (key : string).

(** [setattr(call, key, value)] for one dict entry. *)
Definition setattr (c : CallData) (p : Patch) : CallData :=
  let 'mkCallData i ph nm st t0 t1 d tr am ss oc ob qa xt ou ru rn := c in
  match p with
  | PCallId v => mkCallData v ph nm st t0 t1 d tr am ss oc ob qa xt ou ru rn
  | PPhoneNumber v => mkCallData i v nm st t0 t1 d tr am ss oc ob qa xt ou ru rn
  | PCustomerName v => mkCallData i ph v st t0 t1 d tr am ss oc ob qa xt ou ru rn
  | PStatus v => mkCallData i ph nm v t0 t1 d tr am ss oc ob qa xt ou ru rn
  | PStartTime v => mkCallData i ph nm st v t1 d tr am ss oc ob qa xt ou ru rn
  | PEndTime v => mkCallData i ph nm st t0 v d tr am ss oc ob qa xt ou ru rn
  | PDuration v => mkCallData i ph nm st t0 t1 v tr am ss oc ob qa xt ou ru rn
  | PTranscript v => mkCallData i ph nm st t0 t1 d v am ss oc ob qa xt ou ru rn
  | PAudioMetrics v => mkCallData i ph nm st t0 t1 d tr v ss oc ob qa xt ou ru rn
  | PSentimentScores v => mkCallData i ph nm st t0 t1 d tr am v oc ob qa xt ou ru rn
  | PObjectionsCount v => mkCallData i ph nm st t0 t1 d tr am ss v ob qa xt ou ru rn
  | PObjections v => mkCallData i ph nm st t0 t1 d tr am ss oc v qa xt ou ru rn
  | PQuestionsAsked v => mkCallData i ph nm st t0 t1 d tr am ss oc ob v xt ou ru rn
  | PTransferTo v => mkCallData i ph nm st t0 t1 d tr am ss oc ob qa v ou ru rn
  | POutcome v => mkCallData i ph nm st t0 t1 d tr am ss oc ob qa xt v ru rn
  | PRecordingUrl v => mkCallData i ph nm st t0 t1 d tr am ss oc ob qa xt ou v rn
  | PRoomName v => mkCallData i ph nm st t0 t1 d tr am ss oc ob qa xt ou ru v
  | PUnknown _ => c
  end.

(** [for key, value in data.items(): if hasattr(call, key): setattr(...)] *)
Definition apply_data (c : CallData) (data : list Patch) : CallData :=
  fold_left setattr data c.

Definition set_status (c : CallData) (s : CallStatus) : CallData :=
  setattr c (PStatus s).
Definition set_duration (c : CallData) (d : Z) : CallData :=
  setattr c (PDuration d).
Definition set_end_time (c : CallData) (t : option Z) : CallData :=
  setattr c (PEndTime t).
Definition set_transcript (c : CallData) (l : list TranscriptMessage) : CallData :=
  setattr c (PTranscript l).
Definition set_audio_metrics (c : CallData) (l : list AudioMetrics) : CallData :=
  setattr c (PAudioMetrics l).

(** Python truthiness of an [Optional[float]]: [None] and [0.0] are false. *)
Definition truthy_time (t : option Z) : option Z :=
  match t with
  | Some z => if Z.eqb z 0 then None else Some z
  | None => None
  end.

(** [(call.end_time if call.end_time else now) - call.start_time] *)
Definition compute_duration (c : CallData) (now : Z) : Z :=
  match truthy_time (end_time c) with
  | Some e => e - start_time c
  | None => now - start_time c
  end.

(** Python's [l[i:]] for an integer [i] (negative [i] counts from the end). *)
Definition py_slice_from {A} (l : list A) (i : Z) : list A :=
  let n := Z.of_nat (length l) in
  let j := if Z.ltb i 0 then Z.max 0 (n + i) else Z.min i n in
  drop (Z.to_nat j) l.

(** The last [n] elements of a list. *)
Definition lastn {A} (n : nat) (l : list A) : list A :=
  drop (length l - n) l.

(** ** Events, external requests and the registry state *)

Definition Obs := nat.

Inductive Msg :=
| CallStarted (cid : string) (data : CallData)
| CallStatusUpdate (cid : string) (st : CallStatus) (data : CallData)
| TranscriptUpdate (cid : string) (message : TranscriptMessage)
| AudioMetricsMsg (cid : string) (metrics : AudioMetrics).

(** A LiveKit request issued by a handler. *)
Inductive ExtRequest :=
| CreateDispatch (agent_name : string) (room : option string)
    (metadata : list (string * string))
| TransferSIPParticipant (room : option string) (participant : string)
    (target : string)
| DeleteRoom (room : option string).

(** The outcome of a LiveKit request: a value, or the raised exception's
    message. *)
Inductive ext (A : Type) := ExtOk (a : A) | ExtFail (detail : string).
Arguments ExtOk {A} a.
Arguments ExtFail {A} detail.

Record State := mkState {
  call_data : gmap string CallData;
  call_history : list CallData;
  active_connections : list Obs;
  events : list Msg;                  (* every broadcast, in order *)
  deliveries : list (Obs * Msg);      (* every successful send_json *)
  ext_log : list ExtRequest           (* every LiveKit request issued *)
}.

Definition empty_state : State := mkState ∅ [] [] [] [] [].

Definition set_call_data (s : State) (m : gmap string CallData) : State :=
  mkState m (call_history s) (active_connections s) (events s)
    (deliveries s) (ext_log s).
Definition set_call_history (s : State) (h : list CallData) : State :=
  mkState (call_data s) h (active_connections s) (events s)
    (deliveries s) (ext_log s).
Definition log_ext (s : State) (r : ExtRequest) : State :=
  mkState (call_data s) (call_history s) (active_connections s) (events s)
    (deliveries s) (ext_log s ++ [r]).

(** [HTTPException(404, "Call not found")], [HTTPException(500, str(e))]
    and Python's [ZeroDivisionError]. *)
Inductive Err :=
| NotFound
| DelegatedActionFailure (detail : string)
| ZeroDivisionError.

Inductive Result (A : Type) := Ok (a : A) | Error (e : Err).
Arguments Ok {A} a.
Arguments Error {A} e.

(** Error-and-state monad: an exception keeps the state reached so far. *)
Definition M (A : Type) := State -> Result A * State.

Definition ret {A} (a : A) : M A := fun s => (Ok a, s).
Definition bind {A B} (m : M A) (k : A -> M B) : M B :=
  fun s => match m s with
           | (Ok a, s') => k a s'
           | (Error e, s') => (Error e, s')
           end.
Definition get : M State := fun s => (Ok s, s).
Definition put (s : State) : M unit := fun _ => (Ok tt, s).
Definition raise {A} (e : Err) : M A := fun s => (Error e, s).

Notation "'let*' x := m 'in' k" := (bind m (fun x => k))
  (at level 200, x name, m at level 100, k at level 200).

(** ** Statistics *)

Record Stats := mkStats {
  total_calls : Z;
  active_calls : Z;
  successful_transfers : Z;
  average_duration : Q;
  success_rate : Q;
  total_duration : option Z    (* the key is absent from the empty-history dict *)
}.

(** Python's [/] on numbers: raises [ZeroDivisionError] on a zero divisor. *)
Definition py_div (a b : Q) : option Q :=
  if Qeq_bool b 0 then None else Some (a / b)%Q.

Definition sum_Z (l : list Z) : Z := fold_left Z.add l 0.

(** [ConnectionManager.get_statistics]; [None] is a raised
    [ZeroDivisionError]. *)
Definition get_statistics (s : State) : option Stats :=
  let total := Z.of_nat (length (call_history s)) in
  if Z.eqb total 0 then
    Some (mkStats 0 0 0 0%Q 0%Q None)
  else
    let successful := Z.of_nat (length (List.filter
          (fun c => bool_decide (outcome c = Some "transferred"%string))
          (call_history s))) in
    let tot_dur := sum_Z (map duration (call_history s)) in
    let avg := if Z.ltb 0 total then py_div (inject_Z tot_dur) (inject_Z total)
               else Some 0%Q in
    let rate := if Z.ltb 0 total then
                  match py_div (inject_Z successful) (inject_Z total) with
                  | Some q => Some (q * inject_Z 100)%Q
                  | None => None
                  end
                else Some 0%Q in
    match avg, rate with
    | Some a, Some r =>
        Some (mkStats total (Z.of_nat (size (call_data s))) successful a r
                (Some tot_dur))
    | _, _ => None
    end.

(** ** The manager's methods and the HTTP handlers *)

Section Backend.

(** Whether [connection.send_json(message)] succeeds for an observer. *)
Variable send_ok : Obs -> Msg -> bool.

(** The [for connection in self.active_connections] loop of [broadcast]:
    the successful sends, and the set [disconnected]. *)
Fixpoint send_each (msg : Msg) (conns : list Obs) : list (Obs * Msg) * list Obs :=
  match conns with
  | [] => ([], [])
  | o :: rest =>
      let '(sent, disconnected) := send_each msg rest in
      if send_ok o msg then ((o, msg) :: sent, disconnected)
      else (sent, o :: disconnected)
  end.

(** [ConnectionManager.broadcast]: every send is attempted; the failed
    observers are removed afterwards ([active_connections -= disconnected]). *)
Definition broadcast (msg : Msg) : M unit := fun s =>
  let '(sent, disconnected) := send_each msg (active_connections s) in
  (Ok tt,
   mkState (call_data s) (call_history s)
     (List.filter (fun o => negb (existsb (Nat.eqb o) disconnected))
        (active_connections s))
     (events s ++ [msg]) (deliveries s ++ sent) (ext_log s)).

(** [ConnectionManager.update_call_status] *)
Definition update_call_status (cid : string) (st : CallStatus)
    (data : list Patch) (now : Z) : M unit :=
  let* s := get in
  match call_data s !! cid with
  | None => ret tt
  | Some c =>
      let c1 := apply_data (set_status c st) data in
      let c2 := set_duration c1 (compute_duration c1 now) in
      let* _ := put (set_call_data s (<[cid:=c2]> (call_data s))) in
      broadcast (CallStatusUpdate cid st c2)
  end.

(** [ConnectionManager.add_transcript] *)
Definition add_transcript (cid : string) (m : TranscriptMessage) : M unit :=
  let* s := get in
  match call_data s !! cid with
  | None => ret tt
  | Some c =>
      let c1 := set_transcript c (transcript c ++ [m]) in
      let* _ := put (set_call_data s (<[cid:=c1]> (call_data s))) in
      broadcast (TranscriptUpdate cid m)
  end.

(** The metric list after [append] and the [[-100:]] truncation. *)
Definition append_metric (l : list AudioMetrics) (m : AudioMetrics) : list AudioMetrics :=
  let l1 := l ++ [m] in
  if Nat.ltb 100 (length l1) then py_slice_from l1 (-100) else l1.

(** [ConnectionManager.update_audio_metrics] *)
Definition update_audio_metrics (cid : string) (m : AudioMetrics) : M unit :=
  let* s := get in
  match call_data s !! cid with
  | None => ret tt
  | Some c =>
      let c1 := set_audio_metrics c (append_metric (audio_metrics c) m) in
      let* _ := put (set_call_data s (<[cid:=c1]> (call_data s))) in
      broadcast (AudioMetricsMsg cid m)
  end.

(** [ConnectionManager.get_statistics] run as a method of the manager. *)
Definition get_statistics_m : M Stats :=
  let* s := get in
  match get_statistics s with
  | Some st => ret st
  | None => raise ZeroDivisionError
  end.

(** The record built by [start_call]. *)
Definition new_call (call_id : string) (now : Z)
    (phone_number customer_name transfer_to : string) : CallData :=
  mkCallData call_id phone_number customer_name DIALING now None 0 [] []
    [("positive"%string, 0); ("neutral"%string, 100); ("negative"%string, 0)]
    0 [] 0 (Some transfer_to) None None
    (Some ("outbound-call-" ++ call_id)%string).

(** [start_call]: [uuid] is the value of [str(uuid.uuid4())], [now] the
    sampled time, [dispatch] the outcome of [create_dispatch] (the
    dispatch id, or the exception's message). *)
Definition start_call (uuid : string) (now : Z)
    (phone_number customer_name transfer_to : string)
    (dispatch : ext string) : M (string * string) :=
  let call_id := uuid in
  let c := new_call call_id now phone_number customer_name transfer_to in
  let* s := get in
  let* _ := put (set_call_data s (<[call_id:=c]> (call_data s))) in
  let metadata := [("phone_number"%string, phone_number);
                   ("transfer_to"%string, transfer_to);
                   ("call_id"%string, call_id)] in
  let* s := get in
  let* _ := put (log_ext s (CreateDispatch "outbound-caller" (room_name c) metadata)) in
  match dispatch with
  | ExtFail e => raise (DelegatedActionFailure e)
  | ExtOk dispatch_id =>
      let* _ := broadcast (CallStarted call_id c) in
      ret (call_id, dispatch_id)
  end.

(** [transfer_call]; [res] is the outcome of [transfer_sip_participant]. *)
Definition transfer_call (cid dest : string) (res : ext unit) (now : Z) : M unit :=
  let* s := get in
  match call_data s !! cid with
  | None => raise NotFound
  | Some c =>
      let* _ := put (log_ext s (TransferSIPParticipant (room_name c)
                                  (phone_number c) ("tel:" ++ dest))) in
      match res with
      | ExtFail e => raise (DelegatedActionFailure e)
      | ExtOk _ =>
          let* _ := update_call_status cid TRANSFERRING [PTransferTo (Some dest)] now in
          ret tt
      end
  end.

(** [end_call]; [res] is the outcome of [delete_room].  The local [call]
    and [manager.call_data[call_id]] are one object: the record moved to
    the history is the one [update_call_status] left in the dict. *)
Definition end_call (cid : string) (res : ext unit) (now : Z) : M unit :=
  let* s := get in
  match call_data s !! cid with
  | None => raise NotFound
  | Some c =>
      let* _ := put (log_ext s (DeleteRoom (room_name c))) in
      match res with
      | ExtFail e => raise (DelegatedActionFailure e)
      | ExtOk _ =>
          let c1 := set_end_time c (Some now) in
          let* s := get in
          let* _ := put (set_call_data s (<[cid:=c1]> (call_data s))) in
          let* _ := update_call_status cid ENDED [] now in
          let* s := get in
          let call := match call_data s !! cid with Some c2 => c2 | None => c1 end in
          let* _ := put (set_call_history s (call_history s ++ [call])) in
          let* s := get in
          put (set_call_data s (delete cid (call_data s)))
      end
  end.

(** [get_call]: the active record, else the first historical record with
    that id, else 404. *)
Definition get_call (cid : string) : M CallData :=
  let* s := get in
  match call_data s !! cid with
  | Some c => ret c
  | None =>
      match List.find (fun c => String.eqb (call_id c) cid) (call_history s) with
      | Some c => ret c
      | None => raise NotFound
      end
  end.

(** [get_calls]: [manager.call_history[-limit:]] and the history size. *)
Definition get_calls (limit : Z) : M (list CallData * Z) :=
  let* s := get in
  ret (py_slice_from (call_history s) (- limit),
       Z.of_nat (length (call_history s))).

(** The registry operations a request can trigger, with the values the
    outside world supplies to each. *)
Inductive op :=
| OpStartCall (uuid : string) (now : Z) (phone name dest : string) (dispatch : ext string)
| OpUpdateStatus (cid : string) (st : CallStatus) (data : list Patch) (now : Z)
| OpAddTranscript (cid : string) (m : TranscriptMessage)
| OpUpdateAudio (cid : string) (m : AudioMetrics)
| OpTransfer (cid dest : string) (res : ext unit) (now : Z)
| OpEndCall (cid : string) (res : ext unit) (now : Z).

(** The state after an operation; an exception ends the request but
    keeps the state it reached. *)
Definition exec_op (o : op) (s : State) : State :=
  match o with
  | OpStartCall u t p n d r => snd (start_call u t p n d r s)
  | OpUpdateStatus c st data t => snd (update_call_status c st data t s)
  | OpAddTranscript c m => snd (add_transcript c m s)
  | OpUpdateAudio c m => snd (update_audio_metrics c m s)
  | OpTransfer c d r t => snd (transfer_call c d r t s)
  | OpEndCall c r t => snd (end_call c r t s)
  end.

Definition run (ops : list op) (s : State) : State :=
  fold_left (fun s o => exec_op o s) ops s.

End Backend.

(** ** Partitions, reachable states and concrete runs *)

(** [call_id in manager.call_data] *)
Definition active_mem (cid : string) (s : State) : bool :=
  match call_data s !! cid with Some _ => true | None => false end.

(** Some record of [manager.call_history] has this [call_id]. *)
Definition history_mem (cid : string) (s : State) : bool :=
  existsb (fun c => String.eqb (call_id c) cid) (call_history s).

(** A dict entry that leaves [call_id] alone. *)
Definition keeps_call_id (p : Patch) : bool :=
  match p with PCallId _ => false | _ => true end.

(** The operations considered by the partition invariant: [uuid4] yields
    an id not in use, and no [update_call_status] dict has the key
    [call_id]. *)
Definition op_ok (s : State) (o : op) : Prop :=
  match o with
  | OpStartCall u _ _ _ _ _ => active_mem u s = false /\ history_mem u s = false
  | OpUpdateStatus _ _ data _ => forallb keeps_call_id data = true
  | _ => True
  end.

(** States reached from a fresh [ConnectionManager()] (any observers
    connected) by such operations. *)
Inductive reachable (send_ok : Obs -> Msg -> bool) : State -> Prop :=
| reach_init conns : reachable send_ok (mkState ∅ [] conns [] [] [])
| reach_step s o :
    reachable send_ok s -> op_ok s o -> reachable send_ok (exec_op send_ok o s).

(** Every send succeeds. *)
Definition all_ok (_ : Obs) (_ : Msg) : bool := true.

(** Audio sample number [i] (numbered from 1). *)
Definition sample (i : nat) : AudioMetrics :=
  mkAudioMetrics (Z.of_nat i) 0 0 false false 0.

(** The state after a call "c1" is started at time 100 with one observer. *)
Definition one_call_state : State :=
  snd (start_call all_ok "c1" 100 "+15550001" "Ana" "+15559999" (ExtOk "d1")
         (mkState ∅ [] [1%nat] [] [] [])).

(** A call "a" whose record is patched with the key [call_id] ("b"), then a
    second call "b", then "a" is ended. *)
Definition renamed_run : State :=
  run all_ok
    [OpStartCall "a" 100 "+15550001" "Ana" "+15559999" (ExtOk "d1");
     OpUpdateStatus "a" CONNECTED [PCallId "b"] 150;
     OpStartCall "b" 160 "+15550002" "Bo" "+15559999" (ExtOk "d2");
     OpEndCall "a" (ExtOk tt) 200]
    empty_state.

(** Steps between states by operations satisfying [op_ok]. *)
Inductive steps (send_ok : Obs -> Msg -> bool) : State -> State -> Prop :=
| steps_refl s : steps send_ok s s
| steps_step s o s' :
    op_ok s o -> steps send_ok (exec_op send_ok o s) s' -> steps send_ok s s'.

(** The registry invariant: an active record carries its key as id,
    historical ids are distinct, and no id is both active and historical. *)
Definition Inv (s : State) : Prop :=
  (forall k c, call_data s !! k = Some c -> call_id c = k) /\
  NoDup (map call_id (call_history s)) /\
  (forall k, active_mem k s = true -> history_mem k s = false).

(** The id is in one of the partitions. *)
Definition present (k : string) (s : State) : Prop :=
  active_mem k s = true \/ history_mem k s = true.

(** Same active keys, same ids, same history. *)
Definition same_registry (s s' : State) : Prop :=
  (forall k, active_mem k s' = active_mem k s) /\
  (forall k c', call_data s' !! k = Some c' ->
     exists c, call_data s !! k = Some c /\ call_id c' = call_id c) /\
  call_history s' = call_history s.

(** ** Observers, the websocket endpoint and the simulation task *)

(** [self.active_connections.add(websocket)] on the list view of the set. *)
Definition set_add (o : Obs) (l : list Obs) : list Obs :=
  if existsb (Nat.eqb o) l then l else l ++ [o].

Definition set_connections (s : State) (l : list Obs) : State :=
  mkState (call_data s) (call_history s) l (events s) (deliveries s) (ext_log s).

(** [ConnectionManager.disconnect]: [discard], a no-op for an unknown
    observer. *)
Definition disconnect (o : Obs) (s : State) : State :=
  set_connections s (List.filter (fun x => negb (Nat.eqb x o)) (active_connections s)).

(** The [initial_state] message of [send_initial_state]. *)
Record InitialState := mkInitialState {
  init_active_calls : gmap string CallData;
  init_call_history : list CallData;
  init_stats : Stats
}.

(** The payload built by [send_initial_state]; [None] would be a raised
    [ZeroDivisionError] from [get_statistics]. *)
Definition initial_state_data (s : State) : option InitialState :=
  match get_statistics s with
  | Some st => Some (mkInitialState (call_data s) (py_slice_from (call_history s) (-50)) st)
  | None => None
  end.

(** [ConnectionManager.connect]: [accepted] is the outcome of
    [websocket.accept()], [sent] that of [send_json] of the initial state.
    The result is the snapshot sent, or [None] when an exception escapes
    [connect] (the observer stays registered if it was added). *)
Definition connect (o : Obs) (accepted sent : bool) (s : State) : option InitialState * State :=
  if accepted then
    let s1 := set_connections s (set_add o (active_connections s)) in
    match initial_state_data s1 with
    | Some d => if sent then (Some d, s1) else (None, s1)
    | None => (None, s1)
    end
  else (None, s).

(** What [websocket.receive_json()] yields: a JSON object with its ["type"]
    value ([None] when the key is absent) and whether a reply sent to it
    would succeed; a JSON value that is not an object (so [data.get]
    raises); or a raised exception ([WebSocketDisconnect] or another). *)
Inductive ClientEvent :=
| Recv (msg_type : option string) (reply_ok : bool)
| RecvNonObject
| RecvFails.

(** The receive loop of [websocket_endpoint] for observer [o]: the number
    of ["pong"] replies sent and the state.  The loop stops at the first
    exception, which disconnects [o]; an exhausted list is a connection
    still open. *)
Fixpoint serve (o : Obs) (evs : list ClientEvent) (pongs : nat) (s : State) : nat * State :=
  match evs with
  | [] => (pongs, s)
  | Recv ty ok :: rest =>
      if bool_decide (ty = Some "ping"%string) then
        if ok then serve o rest (S pongs) s else (pongs, disconnect o s)
      else serve o rest pongs s
  | RecvNonObject :: _ => (pongs, disconnect o s)
  | RecvFails :: _ => (pongs, disconnect o s)
  end.

(** [websocket_endpoint]: [connect], then the receive loop.  An exception
    inside [connect] is outside the [try] and ends the handler without
    [disconnect]. *)
Definition websocket_endpoint (o : Obs) (accepted sent : bool) (evs : list ClientEvent)
    (s : State) : option InitialState * nat * State :=
  match connect o accepted sent s with
  | (Some d, s1) => let '(n, s2) := serve o evs 0 s1 in (Some d, n, s2)
  | (None, s1) => (None, 0%nat, s1)
  end.

(** A status for which [simulate_call_updates] produces metrics. *)
Definition live_status (st : CallStatus) : bool :=
  match st with CONNECTED | TALKING => true | _ => false end.

(** One pass of the loop of [simulate_call_updates]: [order] is the
    iteration order of [manager.call_data] and [gen k] the random sample
    drawn for call [k]. *)
Fixpoint simulate_tick (send_ok : Obs -> Msg -> bool) (order : list string)
    (gen : string -> AudioMetrics) (s : State) : State :=
  match order with
  | [] => s
  | k :: rest =>
      let s1 := match call_data s !! k with
                | Some c => if live_status (status c)
                            then snd (update_audio_metrics send_ok k (gen k) s) else s
                | None => s
                end in
      simulate_tick send_ok rest gen s1
  end.

(** The status stored by [update_call_status]: the argument, overridden by
    each [status] entry of [data] in turn. *)
Definition status_after (st : CallStatus) (data : list Patch) : CallStatus :=
  fold_left (fun acc p => match p with PStatus v => v | _ => acc end) data st.

(** ** Helper lemmas *)

Lemma send_each_spec (send_ok : Obs -> Msg -> bool) msg (l : list Obs) :
  send_each send_ok msg l =
  (map (fun o => (o, msg)) (List.filter (fun o => send_ok o msg) l),
   List.filter (fun o => negb (send_ok o msg)) l).
Proof.
  induction l as [|o l IH]; simpl; [done|].
  rewrite IH. by destruct (send_ok o msg).
Qed.

Lemma remove_failed (send_ok : Obs -> Msg -> bool) msg (l : list Obs) :
  List.filter (fun o : Obs => negb (existsb (Nat.eqb o)
                 (List.filter (fun o : Obs => negb (send_ok o msg)) l))) l =
  List.filter (fun o => send_ok o msg) l.
Proof.
  apply filter_ext_in. intros o Ho.
  destruct (send_ok o msg) eqn:E.
  - apply negb_true_iff, Bool.not_true_iff_false. intros Hex.
    apply existsb_exists in Hex as (o' & Hin & Heq).
    apply Nat.eqb_eq in Heq. subst o'.
    apply filter_In in Hin as [_ Hf]. rewrite E in Hf. discriminate.
  - apply negb_false_iff, existsb_exists. exists o. split.
    + apply filter_In. by rewrite E.
    + apply Nat.eqb_refl.
Qed.

Lemma broadcast_ok send_ok (msg : Msg) (s : State) :
  exists s', broadcast send_ok msg s = (Ok tt, s') /\
    call_data s' = call_data s /\ call_history s' = call_history s /\
    ext_log s' = ext_log s.
Proof.
  unfold broadcast. rewrite send_each_spec. cbv beta iota.
  eexists. repeat split.
Qed.

Lemma update_call_status_spec send_ok (s : State) cid (c : CallData) st data now :
  call_data s !! cid = Some c ->
  exists s', update_call_status send_ok cid st data now s = (Ok tt, s') /\
    call_data s' = <[cid := set_duration (apply_data (set_status c st) data)
                        (compute_duration (apply_data (set_status c st) data) now)]>
                   (call_data s) /\
    call_history s' = call_history s /\ ext_log s' = ext_log s.
Proof.
  intros H. unfold update_call_status, bind, get, put. simpl. rewrite H.
  match goal with |- context [broadcast send_ok ?m ?s0] =>
    destruct (broadcast_ok send_ok m s0) as (s' & -> & Hd & Hh & He) end.
  exists s'. by rewrite Hd, Hh, He.
Qed.

Lemma update_audio_metrics_lookup send_ok (s : State) cid (c : CallData) m :
  call_data s !! cid = Some c ->
  call_data (snd (update_audio_metrics send_ok cid m s)) !! cid =
  Some (set_audio_metrics c (append_metric (audio_metrics c) m)).
Proof.
  intros H. unfold update_audio_metrics, bind, get, put. simpl. rewrite H.
  match goal with |- context [broadcast send_ok ?m ?s0] =>
    destruct (broadcast_ok send_ok m s0) as (s' & -> & Hd & _ & _) end.
  simpl. rewrite Hd. simpl. apply lookup_insert_eq.
Qed.

Lemma lastn_lastn_app {A} (n : nat) (l r : list A) :
  lastn n (lastn n l ++ r) = lastn n (l ++ r).
Proof.
  unfold lastn. rewrite !length_app, length_drop, !drop_app, drop_drop, length_drop.
  f_equal; f_equal; lia.
Qed.

Lemma lastn_short {A} (n : nat) (l : list A) : (length l <= n)%nat -> lastn n l = l.
Proof. intros H. unfold lastn. replace (length l - n)%nat with 0%nat by lia. done. Qed.

Lemma length_lastn {A} (n : nat) (l : list A) : (length (lastn n l) <= n)%nat.
Proof. unfold lastn. rewrite length_drop. lia. Qed.

Lemma append_metric_lastn (X : list AudioMetrics) m :
  append_metric (lastn 100 X) m = lastn 100 (X ++ [m]).
Proof.
  rewrite <- lastn_lastn_app.
  pose proof (length_lastn 100 X) as HX.
  unfold append_metric. remember (lastn 100 X) as l.
  destruct (Nat.ltb_spec 100 (length (l ++ [m]))).
  - unfold py_slice_from, lastn. simpl. f_equal. lia.
  - by rewrite lastn_short.
Qed.

Lemma set_audio_metrics_get (c : CallData) l : audio_metrics (set_audio_metrics c l) = l.
Proof. by destruct c. Qed.

Lemma run_cons send_ok o ops (s : State) :
  run send_ok (o :: ops) s = run send_ok ops (exec_op send_ok o s).
Proof. reflexivity. Qed.

Lemma run_audio send_ok cid (ms : list AudioMetrics) :
  forall (s : State) (c : CallData) (X : list AudioMetrics),
  call_data s !! cid = Some c -> audio_metrics c = lastn 100 X ->
  exists c', call_data (run send_ok (map (OpUpdateAudio cid) ms) s) !! cid = Some c' /\
    audio_metrics c' = lastn 100 (X ++ ms).
Proof.
  induction ms as [|m ms IH]; intros s c X Hc HX.
  - exists c. by rewrite app_nil_r.
  - simpl map. rewrite run_cons. simpl exec_op.
    edestruct (IH _ _ (X ++ [m]) (update_audio_metrics_lookup send_ok s cid c m Hc))
      as (c' & Hc' & Hm).
    + by rewrite set_audio_metrics_get, HX, append_metric_lastn.
    + exists c'. split; [done|]. by rewrite Hm, <- app_assoc.
Qed.

Lemma history_mem_iff k (s : State) :
  history_mem k s = true <-> In k (map call_id (call_history s)).
Proof.
  unfold history_mem. rewrite existsb_exists, in_map_iff. split.
  - intros (c & Hin & Heq). apply String.eqb_eq in Heq. eauto.
  - intros (c & Heq & Hin). exists c. split; [done|]. by apply String.eqb_eq.
Qed.

Lemma active_mem_iff k (s : State) :
  active_mem k s = true <-> is_Some (call_data s !! k).
Proof.
  unfold active_mem. destruct (call_data s !! k); split; intros H; try done.
  all: by destruct H.
Qed.

Lemma call_id_setattr (c : CallData) p :
  keeps_call_id p = true -> call_id (setattr c p) = call_id c.
Proof. destruct c, p; simpl; done. Qed.

Lemma call_id_apply_data (data : list Patch) :
  forall c, forallb keeps_call_id data = true -> call_id (apply_data c data) = call_id c.
Proof.
  unfold apply_data. induction data as [|p data IH]; intros c H; [done|].
  simpl in *. apply andb_true_iff in H as [Hp Hd].
  rewrite IH by done. by apply call_id_setattr.
Qed.

Lemma same_registry_refl (s : State) : same_registry s s.
Proof. split; [done|]. split; [|done]. intros k c' H. eauto. Qed.

Lemma same_registry_trans (s1 s2 s3 : State) :
  same_registry s1 s2 -> same_registry s2 s3 -> same_registry s1 s3.
Proof.
  intros (A1 & B1 & C1) (A2 & B2 & C2). split; [|split].
  - intros k. by rewrite A2, A1.
  - intros k c3 H3. destruct (B2 k c3 H3) as (c2 & H2 & E2).
    destruct (B1 k c2 H2) as (c1 & H1' & E1). exists c1. split; [done|congruence].
  - congruence.
Qed.

Lemma same_registry_log (s : State) r : same_registry s (log_ext s r).
Proof.
  split; [reflexivity|]. split; [|reflexivity].
  intros k c' H. exists c'. split; [exact H|reflexivity].
Qed.

Lemma same_registry_insert (s s' : State) k (c c' : CallData) :
  call_data s !! k = Some c -> call_id c' = call_id c ->
  call_data s' = <[k := c']> (call_data s) -> call_history s' = call_history s ->
  same_registry s s'.
Proof.
  intros Hc Hid Hd Hh. split; [|split; [|done]].
  - intros j. unfold active_mem. rewrite Hd, lookup_insert.
    case_decide; [subst; by rewrite Hc|done].
  - intros j c2. rewrite Hd, lookup_insert. case_decide.
    + intros [= <-]. subst. eauto.
    + intros Hj. eauto.
Qed.

Lemma update_call_status_same send_ok (s : State) cid st data now :
  forallb keeps_call_id data = true ->
  exists s', update_call_status send_ok cid st data now s = (Ok tt, s') /\
    same_registry s s'.
Proof.
  intros Hk. destruct (call_data s !! cid) as [c|] eqn:Hc.
  - destruct (update_call_status_spec send_ok s cid c st data now Hc)
      as (s' & -> & Hd & Hh & _).
    exists s'. split; [done|]. eapply same_registry_insert; [exact Hc| |exact Hd|exact Hh].
    unfold set_duration, set_status.
    rewrite call_id_setattr, call_id_apply_data, call_id_setattr; done.
  - exists s. split; [|apply same_registry_refl].
    unfold update_call_status, bind, get, ret. simpl. by rewrite Hc.
Qed.

Lemma add_transcript_same send_ok (s : State) cid m :
  same_registry s (snd (add_transcript send_ok cid m s)).
Proof.
  unfold add_transcript, bind, get, put, ret. simpl.
  destruct (call_data s !! cid) as [c|] eqn:Hc; [|apply same_registry_refl].
  match goal with |- context [broadcast send_ok ?m ?s0] =>
    destruct (broadcast_ok send_ok m s0) as (s' & -> & Hd & Hh & _) end.
  eapply same_registry_insert; [exact Hc| | exact Hd | exact Hh].
  by destruct c.
Qed.

Lemma update_audio_metrics_same send_ok (s : State) cid m :
  same_registry s (snd (update_audio_metrics send_ok cid m s)).
Proof.
  unfold update_audio_metrics, bind, get, put, ret. simpl.
  destruct (call_data s !! cid) as [c|] eqn:Hc; [|apply same_registry_refl].
  match goal with |- context [broadcast send_ok ?m ?s0] =>
    destruct (broadcast_ok send_ok m s0) as (s' & -> & Hd & Hh & _) end.
  eapply same_registry_insert; [exact Hc| | exact Hd | exact Hh].
  by destruct c.
Qed.

Lemma transfer_call_same send_ok (s : State) cid dest res now :
  same_registry s (snd (transfer_call send_ok cid dest res now s)).
Proof.
  unfold transfer_call, bind, get, put, raise, ret. simpl.
  destruct (call_data s !! cid) as [c|] eqn:Hc; [|apply same_registry_refl].
  destruct res as [u|e]; simpl; [|apply same_registry_log].
  match goal with |- context [update_call_status send_ok ?k ?st ?d ?t ?s0] =>
    destruct (update_call_status_same send_ok s0 k st d t) as (s' & -> & Hs);
    [reflexivity|] end.
  eapply same_registry_trans; [apply same_registry_log|exact Hs].
Qed.

Lemma start_call_shape send_ok uuid now p n d r (s : State) :
  call_data (snd (start_call send_ok uuid now p n d r s)) =
    <[uuid := new_call uuid now p n d]> (call_data s) /\
  call_history (snd (start_call send_ok uuid now p n d r s)) = call_history s.
Proof.
  destruct r as [did|e]; unfold start_call, bind, get, put, raise, ret; simpl;
    [|done].
  match goal with |- context [broadcast send_ok ?m ?s0] =>
    destruct (broadcast_ok send_ok m s0) as (s' & -> & Hd & Hh & _) end.
  simpl. by rewrite Hd, Hh.
Qed.

Lemma end_call_shape send_ok (s : State) cid res now :
  same_registry s (snd (end_call send_ok cid res now s)) \/
  exists c c', call_data s !! cid = Some c /\
    call_data (snd (end_call send_ok cid res now s)) = delete cid (call_data s) /\
    call_history (snd (end_call send_ok cid res now s)) = call_history s ++ [c'] /\
    call_id c' = call_id c.
Proof.
  unfold end_call, bind, get, put, raise, ret. simpl.
  destruct (call_data s !! cid) as [c|] eqn:Hc; [|left; apply same_registry_refl].
  destruct res as [u|e]; simpl; [|left; apply same_registry_log].
  right.
  match goal with |- context [update_call_status send_ok ?k ?st ?d ?t ?s0] =>
    destruct (update_call_status_spec send_ok s0 k (set_end_time c (Some now)) st d t)
      as (s3 & -> & Hd & Hh & _); [simpl; apply lookup_insert_eq|] end.
  simpl. rewrite Hd, lookup_insert_eq. simpl.
  eexists c, _. split; [done|]. split; [|split].
  - rewrite !delete_insert_eq. reflexivity.
  - rewrite Hh. reflexivity.
  - by destruct c.
Qed.

Lemma history_mem_snoc k (s : State) (h : list CallData) c :
  call_history s = h ++ [c] ->
  history_mem k s = existsb (fun c => String.eqb (call_id c) k) h || String.eqb (call_id c) k.
Proof. intros H. unfold history_mem. rewrite H, existsb_app. simpl. by rewrite orb_false_r. Qed.

Lemma same_registry_preserves (s s' : State) :
  same_registry s s' -> Inv s ->
  Inv s' /\ (forall k, present k s -> present k s') /\
  call_history s `prefix_of` call_history s'.
Proof.
  intros (Ha & Hc & Hh) (I1 & I2 & I3).
  assert (Hm : forall k, history_mem k s' = history_mem k s)
    by (intros k; unfold history_mem; by rewrite Hh).
  split; [split; [|split]|split].
  - intros k c' H'. destruct (Hc k c' H') as (c & H & ->). eauto.
  - by rewrite Hh.
  - intros k. rewrite Ha, Hm. apply I3.
  - intros k. unfold present. by rewrite Ha, Hm.
  - rewrite Hh. reflexivity.
Qed.

Lemma start_call_preserves send_ok uuid now p n d r (s : State) :
  Inv s -> active_mem uuid s = false -> history_mem uuid s = false ->
  let s' := snd (start_call send_ok uuid now p n d r s) in
  Inv s' /\ (forall k, present k s -> present k s') /\
  call_history s `prefix_of` call_history s'.
Proof.
  intros (I1 & I2 & I3) Ha Hh s'.
  destruct (start_call_shape send_ok uuid now p n d r s) as [Hd Hhist].
  fold s' in Hd, Hhist.
  assert (Hm : forall k, history_mem k s' = history_mem k s)
    by (intros k; unfold history_mem; by rewrite Hhist).
  assert (Ha' : forall k, active_mem k s' = if decide (uuid = k) then true else active_mem k s)
    by (intros k; unfold active_mem; rewrite Hd, lookup_insert; by case_decide).
  split; [split; [|split]|split].
  - intros k c. rewrite Hd, lookup_insert. case_decide.
    + intros [= <-]. by subst.
    + apply I1.
  - by rewrite Hhist.
  - intros k. rewrite Ha', Hm. case_decide; [subst; done|apply I3].
  - intros k. unfold present. rewrite Ha', Hm. case_decide; tauto.
  - rewrite Hhist. reflexivity.
Qed.

Lemma end_call_preserves send_ok (s : State) cid res now :
  Inv s ->
  let s' := snd (end_call send_ok cid res now s) in
  Inv s' /\ (forall k, present k s -> present k s') /\
  call_history s `prefix_of` call_history s'.
Proof.
  intros HI s'.
  destruct (end_call_shape send_ok s cid res now)
    as [Hs | (c & c' & Hc & Hd & Hhist & Hid)]; [by apply same_registry_preserves|].
  fold s' in Hd, Hhist. destruct HI as (I1 & I2 & I3).
  rewrite (I1 _ _ Hc) in Hid.
  assert (Hnot : history_mem cid s = false)
    by (apply I3; unfold active_mem; by rewrite Hc).
  assert (Hm : forall k, history_mem k s' = history_mem k s || String.eqb cid k)
    by (intros k; rewrite (history_mem_snoc k s' _ c' Hhist), Hid; reflexivity).
  assert (Ha' : forall k, active_mem k s' = if decide (cid = k) then false else active_mem k s)
    by (intros k; unfold active_mem; rewrite Hd, lookup_delete; by case_decide).
  split; [split; [|split]|split].
  - intros k c2. rewrite Hd, lookup_delete. case_decide; [done|apply I1].
  - rewrite Hhist, map_app. simpl. rewrite Hid. apply NoDup_app.
    split; [done|]. split; [|apply NoDup_singleton].
    intros x Hx Hx'. apply list_elem_of_singleton in Hx'. subst x.
    apply list_elem_of_In, history_mem_iff in Hx. congruence.
  - intros k. rewrite Ha', Hm. case_decide; [done|].
    intros Hk. rewrite (I3 k Hk). simpl. by apply String.eqb_neq.
  - intros k. unfold present. rewrite Ha', Hm.
    case_decide; [subst; rewrite String.eqb_refl, orb_true_r; by right|].
    intros [Hk|Hk]; [by left|right]. by rewrite Hk.
  - rewrite Hhist. by exists [c'].
Qed.

Lemma step_preserves send_ok (s : State) o :
  Inv s -> op_ok s o ->
  let s' := exec_op send_ok o s in
  Inv s' /\ (forall k, present k s -> present k s') /\
  call_history s `prefix_of` call_history s'.
Proof.
  intros HI Hok. destruct o; simpl in *.
  - destruct Hok as [Ha Hh]. by apply start_call_preserves.
  - destruct (update_call_status_same send_ok s cid st data now Hok) as (s' & -> & Hs).
    by apply same_registry_preserves.
  - apply same_registry_preserves; [apply add_transcript_same|exact HI].
  - apply same_registry_preserves; [apply update_audio_metrics_same|exact HI].
  - apply same_registry_preserves; [apply transfer_call_same|exact HI].
  - by apply end_call_preserves.
Qed.

Lemma reachable_inv send_ok (s : State) : reachable send_ok s -> Inv s.
Proof.
  induction 1 as [conns|s o _ IH Hok].
  - split; [|split].
    + intros k c H. simpl in H. by rewrite lookup_empty in H.
    + constructor.
    + intros k. unfold active_mem. simpl. by rewrite lookup_empty.
  - by apply step_preserves.
Qed.

Lemma steps_preserve send_ok (s s' : State) :
  steps send_ok s s' -> reachable send_ok s ->
  reachable send_ok s' /\ (forall k, present k s -> present k s') /\
  call_history s `prefix_of` call_history s'.
Proof.
  induction 1 as [s|s o s' Hok _ IH]; intros Hr.
  - split; [done|]. split; [done|reflexivity].
  - destruct (step_preserves send_ok s o (reachable_inv send_ok s Hr) Hok)
      as (_ & Hp & Hpre).
    destruct (IH (reach_step send_ok s o Hr Hok)) as (Hr' & Hp' & Hpre').
    split; [done|]. split; [eauto|]. by transitivity (call_history (exec_op send_ok o s)).
Qed.


Lemma broadcast_full send_ok (msg : Msg) (s : State) :
  exists s', broadcast send_ok msg s = (Ok tt, s') /\
    call_data s' = call_data s /\ call_history s' = call_history s /\
    ext_log s' = ext_log s /\ events s' = events s ++ [msg].
Proof.
  unfold broadcast. rewrite send_each_spec. cbv beta iota.
  eexists. repeat split.
Qed.

Lemma update_call_status_full send_ok (s : State) cid (c : CallData) st data now :
  call_data s !! cid = Some c ->
  let c2 := set_duration (apply_data (set_status c st) data)
              (compute_duration (apply_data (set_status c st) data) now) in
  exists s', update_call_status send_ok cid st data now s = (Ok tt, s') /\
    call_data s' = <[cid := c2]> (call_data s) /\
    call_history s' = call_history s /\ ext_log s' = ext_log s /\
    events s' = events s ++ [CallStatusUpdate cid st c2].
Proof.
  intros H c2. unfold update_call_status, bind, get, put. simpl. rewrite H.
  match goal with |- context [broadcast send_ok ?m ?s0] =>
    destruct (broadcast_full send_ok m s0) as (s' & -> & Hd & Hh & He & Hv) end.
  exists s'. by rewrite Hd, Hh, He, Hv.
Qed.

Lemma status_apply_data (data : list Patch) :
  forall c, status (apply_data c data) =
    fold_left (fun acc p => match p with PStatus v => v | _ => acc end) data (status c).
Proof.
  unfold apply_data. induction data as [|p data IH]; intros c; [done|].
  simpl. rewrite IH. f_equal. by destruct c, p.
Qed.

Lemma find_snoc_fresh (h : list CallData) (c : CallData) cid :
  existsb (fun c => String.eqb (call_id c) cid) h = false ->
  call_id c = cid ->
  List.find (fun c => String.eqb (call_id c) cid) (h ++ [c]) = Some c.
Proof.
  intros Hh Hc. induction h as [|x h IH]; simpl in *.
  - by rewrite Hc, String.eqb_refl.
  - apply orb_false_iff in Hh as [Hx Hh]. rewrite Hx. by apply IH.
Qed.

Lemma end_call_ok_spec send_ok (s : State) cid (c : CallData) u now :
  call_data s !! cid = Some c ->
  exists s' c', end_call send_ok cid (ExtOk u) now s = (Ok tt, s') /\
    call_data s' = delete cid (call_data s) /\
    call_history s' = call_history s ++ [c'] /\
    status c' = ENDED /\ end_time c' = Some now /\ duration c' = now - start_time c /\
    call_id c' = call_id c /\ transcript c' = transcript c /\
    audio_metrics c' = audio_metrics c /\ transfer_to c' = transfer_to c /\
    events s' = events s ++ [CallStatusUpdate cid ENDED c'] /\
    ext_log s' = ext_log s ++ [DeleteRoom (room_name c)].
Proof.
  intros H. unfold end_call, bind, get, put, raise, ret. simpl. rewrite H. simpl.
  match goal with |- context [update_call_status send_ok ?k ?st ?d ?t ?s0] =>
    destruct (update_call_status_full send_ok s0 k (set_end_time c (Some now)) st d t)
      as (s3 & -> & Hd & Hh & He & Hv); [simpl; apply lookup_insert_eq|] end.
  simpl. rewrite Hd, lookup_insert_eq. simpl.
  eexists _, _. split; [reflexivity|]. simpl.
  rewrite !delete_insert_eq, Hh, He, Hv. simpl.
  split; [reflexivity|]. split; [reflexivity|].
  destruct c. unfold compute_duration. simpl.
  destruct (Z.eqb now 0); repeat split.
Qed.

Lemma qdiv_nonzero (a b : Z) : (0 < b)%Z -> py_div (inject_Z a) (inject_Z b) = Some (inject_Z a / inject_Z b)%Q.
Proof.
  intros Hb. unfold py_div.
  destruct (Qeq_bool (inject_Z b) 0) eqn:E; [|done].
  apply Qeq_bool_iff in E.
  assert (E2 : inject_Z b == inject_Z 0) by exact E.
  apply (proj1 (inject_Z_injective b 0)) in E2. lia.
Qed.

Lemma rate_bounds (a b : Z) :
  (0 <= a)%Z -> (a <= b)%Z -> (0 < b)%Z ->
  (0 <= inject_Z a / inject_Z b * inject_Z 100 <= inject_Z 100)%Q.
Proof.
  intros Ha Hab Hb.
  rewrite Zle_Qle in Ha, Hab. rewrite Zlt_Qlt in Hb.
  split.
  - apply Qmult_le_0_compat; [|discriminate].
    apply Qle_shift_div_l; [exact Hb|]. rewrite Qmult_0_l. exact Ha.
  - assert (H1 : (inject_Z a / inject_Z b <= 1)%Q).
    { apply Qle_shift_div_r; [exact Hb|]. by rewrite Qmult_1_l. }
    apply (Qmult_le_compat_r _ _ (inject_Z 100)) in H1; [|discriminate].
    by rewrite Qmult_1_l in H1.
Qed.

Lemma update_audio_metrics_data send_ok (s : State) cid (c : CallData) m :
  call_data s !! cid = Some c ->
  call_data (snd (update_audio_metrics send_ok cid m s)) =
    <[cid := set_audio_metrics c (append_metric (audio_metrics c) m)]> (call_data s) /\
  call_history (snd (update_audio_metrics send_ok cid m s)) = call_history s.
Proof.
  intros H. unfold update_audio_metrics, bind, get, put. simpl. rewrite H.
  match goal with |- context [broadcast send_ok ?m ?s0] =>
    destruct (broadcast_full send_ok m s0) as (s' & -> & Hd & Hh & _) end.
  simpl. by rewrite Hd, Hh.
Qed.

Lemma simulate_tick_general send_ok order gen (s : State) :
  NoDup order ->
  call_history (simulate_tick send_ok order gen s) = call_history s /\
  forall k, call_data (simulate_tick send_ok order gen s) !! k =
    match call_data s !! k with
    | Some c => Some (if bool_decide (k ∈ order) && live_status (status c)
                      then set_audio_metrics c (append_metric (audio_metrics c) (gen k))
                      else c)
    | None => None
    end.
Proof.
  revert s. induction order as [|a rest IH]; intros s Hnd.
  - split; [done|]. intros k. simpl.
    destruct (call_data s !! k); done.
  - apply NoDup_cons in Hnd as [Ha Hnd]. simpl.
    destruct (call_data s !! a) as [c|] eqn:Hc.
    + destruct (live_status (status c)) eqn:Hl.
      * destruct (update_audio_metrics_data send_ok s a c (gen a) Hc) as [Hd Hh].
        destruct (IH (snd (update_audio_metrics send_ok a (gen a) s)) Hnd) as [IH1 IH2].
        split; [by rewrite IH1|].
        intros k. rewrite IH2, Hd.
        destruct (decide (k = a)) as [->|Hka].
        -- rewrite lookup_insert_eq, Hc. simpl.
           rewrite (bool_decide_eq_false_2 (a ∈ rest)) by done.
           rewrite (bool_decide_eq_true_2 (a ∈ a :: rest)) by apply list_elem_of_here.
           by rewrite Hl.
        -- rewrite lookup_insert_ne by congruence.
           destruct (call_data s !! k); [|done].
           rewrite (bool_decide_ext (k ∈ a :: rest) (k ∈ rest)); [done|].
           rewrite elem_of_cons. naive_solver.
      * destruct (IH s Hnd) as [IH1 IH2]. split; [done|].
        intros k. rewrite IH2.
        destruct (decide (k = a)) as [->|Hka].
        -- rewrite Hc, Hl. by rewrite !andb_false_r.
        -- destruct (call_data s !! k); [|done].
           rewrite (bool_decide_ext (k ∈ a :: rest) (k ∈ rest)); [done|].
           rewrite elem_of_cons. naive_solver.
    + destruct (IH s Hnd) as [IH1 IH2]. split; [done|].
      intros k. rewrite IH2.
      destruct (decide (k = a)) as [->|Hka]; [by rewrite Hc|].
      destruct (call_data s !! k); [|done].
      rewrite (bool_decide_ext (k ∈ a :: rest) (k ∈ rest)); [done|].
      rewrite elem_of_cons. naive_solver.
Qed.

Lemma py_slice_last50 {A} (l : list A) : py_slice_from l (-50) = lastn 50 l.
Proof.
  unfold py_slice_from, lastn. simpl. f_equal. lia.
Qed.

Lemma get_statistics_conns (s : State) l :
  get_statistics (set_connections s l) = get_statistics s.
Proof. reflexivity. Qed.

Lemma get_statistics_some (s : State) : exists st, get_statistics s = Some st.
Proof.
  unfold get_statistics.
  destruct (Z.eqb_spec (Z.of_nat (length (call_history s))) 0) as [E|E]; [by eexists|].
  destruct (Z.ltb_spec 0 (Z.of_nat (length (call_history s)))); [|lia].
  rewrite !qdiv_nonzero by lia. by eexists.
Qed.

Lemma existsb_nat_false (o : Obs) l : existsb (Nat.eqb o) l = false <-> o ∉ l.
Proof.
  induction l as [|x l IH]; simpl.
  - split; [intros _; apply not_elem_of_nil|done].
  - rewrite orb_false_iff, elem_of_cons, IH, Nat.eqb_neq. naive_solver.
Qed.

Lemma set_add_spec (o : Obs) l :
  (forall x, x ∈ set_add o l <-> x = o \/ x ∈ l) /\ (NoDup l -> NoDup (set_add o l)).
Proof.
  unfold set_add. destruct (existsb (Nat.eqb o) l) eqn:E.
  - assert (o ∈ l).
    { destruct (decide (o ∈ l)); [done|]. apply existsb_nat_false in n. congruence. }
    split; [naive_solver|done].
  - apply existsb_nat_false in E. split.
    + intros x. rewrite elem_of_app, list_elem_of_singleton. naive_solver.
    + intros Hl. apply NoDup_app. split; [done|]. split; [|apply NoDup_singleton].
      intros x Hx Hx'. apply list_elem_of_singleton in Hx'. naive_solver.
Qed.

Lemma filter_not_o (o : Obs) l :
  o ∉ l -> List.filter (fun x => negb (Nat.eqb x o)) l = l.
Proof.
  induction l as [|x l IH]; intros Hn; [done|]. simpl.
  rewrite elem_of_cons in Hn.
  destruct (Nat.eqb_spec x o); [naive_solver|]. simpl. f_equal. naive_solver.
Qed.

Lemma disconnect_elem (o x : Obs) (s : State) :
  x ∈ active_connections (disconnect o s) <-> x ∈ active_connections s /\ x <> o.
Proof.
  unfold disconnect, set_connections. simpl.
  rewrite !list_elem_of_In, filter_In, negb_true_iff, Nat.eqb_neq. done.
Qed.

Lemma serve_effect (o : Obs) evs n (s : State) :
  snd (serve o evs n s) = s \/ snd (serve o evs n s) = disconnect o s.
Proof.
  revert n. induction evs as [|[ty ok| |] evs IH]; intros n; simpl; auto.
  case_bool_decide; [destruct ok|]; simpl; auto.
Qed.

Lemma serve_pings (o : Obs) tys n (s : State) :
  serve o (map (fun t => Recv t true) tys ++ [RecvFails]) n s =
  ((n + length (List.filter (fun t => bool_decide (t = Some "ping"%string)) tys))%nat,
   disconnect o s).
Proof.
  revert n. induction tys as [|t tys IH]; intros n; simpl.
  - by rewrite Nat.add_0_r.
  - case_bool_decide; simpl; rewrite IH; [|done]. by rewrite Nat.add_succ_r.
Qed.

Lemma connect_accepted_spec (o : Obs) sent (s : State) :
  exists st, get_statistics s = Some st /\
  connect o true sent s =
  (if sent then Some (mkInitialState (call_data s) (lastn 50 (call_history s)) st) else None,
   set_connections s (set_add o (active_connections s))).
Proof.
  destruct (get_statistics_some s) as [st Hst]. exists st. split; [exact Hst|].
  unfold connect, initial_state_data. rewrite get_statistics_conns, Hst.
  simpl. rewrite py_slice_last50. by destruct sent.
Qed.

Lemma find_none_existsb {A} (f : A -> bool) l :
  List.find f l = None <-> existsb f l = false.
Proof.
  induction l as [|x l IH]; simpl; [done|].
  destruct (f x); simpl; [split; discriminate|exact IH].
Qed.

Lemma add_transcript_data send_ok (s : State) cid (c : CallData) m :
  call_data s !! cid = Some c ->
  call_data (snd (add_transcript send_ok cid m s)) =
    <[cid := set_transcript c (transcript c ++ [m])]> (call_data s) /\
  call_history (snd (add_transcript send_ok cid m s)) = call_history s /\
  events (snd (add_transcript send_ok cid m s)) = events s ++ [TranscriptUpdate cid m].
Proof.
  intros H. unfold add_transcript, bind, get, put. simpl. rewrite H.
  match goal with |- context [broadcast send_ok ?msg ?s0] =>
    destruct (broadcast_full send_ok msg s0) as (s' & -> & Hd & Hh & _ & Hv) end.
  simpl. by rewrite Hd, Hh, Hv.
Qed.

(** ** Claims *)

(** C1 (counterexample).  A failed dispatch leaves the new record
    registered: [start_call] raises, yet "u" is in [call_data]. *)
Lemma C1_failed_dispatch_record_stays :
  let r := start_call all_ok "u" 100 "+15550001" "Ana" "+15559999"
             (ExtFail "dispatch refused") empty_state in
  fst r = Error (DelegatedActionFailure "dispatch refused") /\
  call_data (snd r) !! "u"%string <> None.
Proof. vm_compute. split; [reflexivity | discriminate]. Qed.

(** C1 (amended).  When [create_dispatch] fails, [start_call] raises the
    dispatch error with its message, issues exactly one dispatch request,
    broadcasts nothing, and leaves the freshly built DIALING record
    registered under its id in the active partition (no rollback). *)
Theorem C1_dispatch_failure_no_rollback send_ok uuid now
    phone_number customer_name transfer_to e (s : State) :
  start_call send_ok uuid now phone_number customer_name transfer_to (ExtFail e) s =
  (Error (DelegatedActionFailure e),
   mkState (<[uuid := new_call uuid now phone_number customer_name transfer_to]>
              (call_data s))
     (call_history s) (active_connections s) (events s) (deliveries s)
     (ext_log s ++ [CreateDispatch "outbound-caller"
                     (Some ("outbound-call-" ++ uuid)%string)
                     [("phone_number"%string, phone_number);
                      ("transfer_to"%string, transfer_to);
                      ("call_id"%string, uuid)]])).
Proof. destruct s. reflexivity. Qed.

(** C2 (counterexample).  [update_call_status] on an unknown id does not
    fail: it returns normally. *)
Lemma C2_unknown_id_no_error :
  update_call_status all_ok "x" CONNECTED [] 100 empty_state = (Ok tt, empty_state).
Proof. reflexivity. Qed.

(** C2 (amended).  For a call id absent from the active partition,
    [update_call_status], [add_transcript] and [update_audio_metrics]
    return normally and change nothing (no broadcast), and [transfer_call]
    fails with NotFound, changes nothing and broadcasts nothing. *)
Theorem C2_inactive_id_no_effect send_ok (s : State) cid st data now m am dest res :
  call_data s !! cid = None ->
  update_call_status send_ok cid st data now s = (Ok tt, s) /\
  add_transcript send_ok cid m s = (Ok tt, s) /\
  update_audio_metrics send_ok cid am s = (Ok tt, s) /\
  transfer_call send_ok cid dest res now s = (Error NotFound, s).
Proof.
  intros H.
  unfold update_call_status, add_transcript, update_audio_metrics,
    transfer_call, bind, get, ret, raise. simpl.
  by rewrite H.
Qed.

Lemma C2_inactive_id_no_effect_witness :
  call_data empty_state !! "x"%string = None /\
  update_call_status all_ok "x" TALKING [] 5 empty_state = (Ok tt, empty_state) /\
  add_transcript all_ok "x" (mkTranscriptMessage "m" CUSTOMER "hello" 5 1 "neutral" None)
    empty_state = (Ok tt, empty_state) /\
  update_audio_metrics all_ok "x" (sample 1) empty_state = (Ok tt, empty_state) /\
  transfer_call all_ok "x" "+1" (ExtOk tt) 5 empty_state = (Error NotFound, empty_state).
Proof.
  split; [reflexivity|].
  apply (C2_inactive_id_no_effect all_ok empty_state "x" TALKING [] 5
           (mkTranscriptMessage "m" CUSTOMER "hello" 5 1 "neutral" None)
           (sample 1) "+1" (ExtOk tt)).
  reflexivity.
Defined.

(** C6.  With an empty history, [get_statistics] returns success_rate 0
    and average_duration 0 without raising, and leaves the whole state
    (registry, observers, event log) unchanged. *)
Theorem C6_empty_history_statistics (s : State) :
  call_history s = [] ->
  exists st, get_statistics_m s = (Ok st, s) /\
    success_rate st = 0%Q /\ average_duration st = 0%Q.
Proof.
  intros H. unfold get_statistics_m, get_statistics, bind, get. simpl.
  rewrite H. simpl. eexists. split; [reflexivity | done].
Qed.

Lemma C6_empty_history_statistics_witness :
  call_history one_call_state = [] /\
  exists st, get_statistics_m one_call_state = (Ok st, one_call_state) /\
    success_rate st = 0%Q /\ average_duration st = 0%Q.
Proof.
  split; [reflexivity|].
  apply C6_empty_history_statistics. reflexivity.
Defined.

(** C7.  [broadcast] sends to every connected observer independently:
    each observer whose send succeeds receives the event (in the set's
    order), whatever happens to the others; exactly the observers whose
    send failed are removed from the set; the registry is untouched. *)
Theorem C7_broadcast_isolation send_ok (msg : Msg) (s : State) :
  broadcast send_ok msg s =
  (Ok tt,
   mkState (call_data s) (call_history s)
     (List.filter (fun o => send_ok o msg) (active_connections s))
     (events s ++ [msg])
     (deliveries s ++ map (fun o => (o, msg))
                          (List.filter (fun o => send_ok o msg) (active_connections s)))
     (ext_log s)).
Proof.
  unfold broadcast. rewrite send_each_spec. cbv beta iota. by rewrite remove_failed.
Qed.

(** C8.  If [transfer_sip_participant] fails on an active call,
    [transfer_call] raises the delegated error with its message; the only
    change to the state is the single transfer request issued (no retry):
    the record, the partitions, the observers and the event log are as
    before. *)
Theorem C8_transfer_failure_unchanged send_ok (s : State) cid (c : CallData) dest e now :
  call_data s !! cid = Some c ->
  transfer_call send_ok cid dest (ExtFail e) now s =
  (Error (DelegatedActionFailure e),
   mkState (call_data s) (call_history s) (active_connections s) (events s)
     (deliveries s)
     (ext_log s ++ [TransferSIPParticipant (room_name c) (phone_number c)
                      ("tel:" ++ dest)%string])).
Proof.
  intros H. unfold transfer_call, bind, get, put, raise. simpl.
  rewrite H. reflexivity.
Qed.

Lemma C8_transfer_failure_unchanged_witness :
  exists c, call_data one_call_state !! "c1"%string = Some c /\
  transfer_call all_ok "c1" "+15557777" (ExtFail "sip error") 150 one_call_state =
  (Error (DelegatedActionFailure "sip error"),
   mkState (call_data one_call_state) (call_history one_call_state)
     (active_connections one_call_state) (events one_call_state)
     (deliveries one_call_state)
     (ext_log one_call_state ++ [TransferSIPParticipant (room_name c) (phone_number c)
                      ("tel:" ++ "+15557777")%string])).
Proof.
  exists (new_call "c1" 100 "+15550001" "Ana" "+15559999").
  split; [reflexivity|].
  apply C8_transfer_failure_unchanged. reflexivity.
Defined.

(** C10.  [get_calls 0] returns the whole history in insertion order
    ([call_history[-0:]] is the whole list); for a positive limit it
    returns the last [limit] records in insertion order. *)
Theorem C10_get_calls_slice (s : State) :
  get_calls 0 s = (Ok (call_history s, Z.of_nat (length (call_history s))), s) /\
  forall limit, 0 < limit ->
    get_calls limit s =
    (Ok (lastn (Z.to_nat limit) (call_history s),
         Z.of_nat (length (call_history s))), s).
Proof.
  split.
  - unfold get_calls, py_slice_from, bind, get, ret. simpl.
    rewrite Z.min_l by lia. reflexivity.
  - intros limit Hl. unfold get_calls, py_slice_from, lastn, bind, get, ret. simpl.
    destruct (Z.ltb_spec (- limit) 0); [|lia].
    do 4 f_equal. lia.
Qed.

Lemma C10_get_calls_slice_witness :
  get_calls 0 one_call_state = (Ok ([], 0), one_call_state) /\
  0 < 2 /\ get_calls 2 one_call_state = (Ok ([], 0), one_call_state).
Proof.
  destruct (C10_get_calls_slice one_call_state) as [H0 Hp].
  split; [exact H0|]. split; [lia|]. apply (Hp 2). lia.
Defined.

(** C4.  Starting from a stored list of at most 100 samples, after any
    sequence of [update_audio_metrics] calls on an active call the stored
    list holds at most 100 samples and is the last 100 of (old ++ appended)
    in append order; for a call created by [start_call] (no samples) this
    is the last 100 appended samples.  After 120 appends on a fresh call,
    the list has length 100 and starts with the 21st sample appended
    (index 20 counting from 0). *)
Theorem C4_audio_metrics_window send_ok (s : State) cid (c : CallData)
    (ms : list AudioMetrics) :
  call_data s !! cid = Some c -> (length (audio_metrics c) <= 100)%nat ->
  (exists c', call_data (run send_ok (map (OpUpdateAudio cid) ms) s) !! cid = Some c' /\
     audio_metrics c' = lastn 100 (audio_metrics c ++ ms) /\
     (length (audio_metrics c') <= 100)%nat) /\
  (exists c', call_data (run all_ok (map (OpUpdateAudio "c1") (map sample (seq 1 120)))
                            one_call_state) !! "c1"%string = Some c' /\
     length (audio_metrics c') = 100%nat /\ head (audio_metrics c') = Some (sample 21)).
Proof.
  intros Hc Hlen. split.
  - destruct (run_audio send_ok cid ms s c (audio_metrics c) Hc)
      as (c' & Hc' & Hm); [by rewrite lastn_short|].
    exists c'. rewrite Hm. split; [done|]. split; [done|]. apply length_lastn.
  - vm_compute. eexists. split; [reflexivity|]. split; reflexivity.
Qed.

Lemma C4_audio_metrics_window_witness :
  call_data one_call_state !! "c1"%string =
    Some (new_call "c1" 100 "+15550001" "Ana" "+15559999") /\
  (length (audio_metrics (new_call "c1" 100 "+15550001" "Ana" "+15559999")) <= 100)%nat /\
  ((exists c', call_data (run all_ok (map (OpUpdateAudio "c1") [sample 1; sample 2])
                            one_call_state) !! "c1"%string = Some c' /\
     audio_metrics c' = lastn 100 (audio_metrics (new_call "c1" 100 "+15550001" "Ana" "+15559999")
                                   ++ [sample 1; sample 2]) /\
     (length (audio_metrics c') <= 100)%nat) /\
  (exists c', call_data (run all_ok (map (OpUpdateAudio "c1") (map sample (seq 1 120)))
                            one_call_state) !! "c1"%string = Some c' /\
     length (audio_metrics c') = 100%nat /\ head (audio_metrics c') = Some (sample 21))).
Proof.
  split; [reflexivity|]. split; [simpl; lia|].
  apply C4_audio_metrics_window; [reflexivity | simpl; lia].
Defined.

(** C5 (counterexample).  The duration is read from the stored field:
    [get_call] on a call started at time 100 returns duration 0, while
    (now - start_time) at time 200 is 100; and an update whose dict sets
    [end_time] before [start_time] stores a negative duration. *)
Lemma C5_duration_stored_not_recomputed :
  (exists c, get_call "c1" one_call_state = (Ok c, one_call_state) /\
     end_time c = None /\ duration c = 0 /\ duration c <> 200 - start_time c) /\
  (exists c, call_data (snd (update_call_status all_ok "c1" CONNECTED
                              [PEndTime (Some 50)] 150 one_call_state)) !! "c1"%string = Some c /\
     duration c < 0).
Proof.
  vm_compute. split.
  - eexists. split; [reflexivity|]. split; [reflexivity|]. split; [reflexivity|discriminate].
  - eexists. split; [reflexivity|]. reflexivity.
Qed.

(** C5 (amended).  The duration is a stored field that reads do not
    recompute: [start_call] stores 0; each [update_call_status] on an
    active call (also run by [transfer_call] and [end_call]) stores
    (end_time if set and nonzero, otherwise the time it samples) minus
    start_time of the updated record, which is non-negative when that time
    is not before start_time; [get_call] returns the stored record as is. *)
Theorem C5_duration_stored_on_update :
  (forall send_ok uuid now p n d r (s : State),
     exists c, call_data (snd (start_call send_ok uuid now p n d r s)) !! uuid = Some c /\
       duration c = 0) /\
  (forall send_ok (s : State) cid (c : CallData) st data now,
     call_data s !! cid = Some c ->
     exists c', call_data (snd (update_call_status send_ok cid st data now s)) !! cid = Some c' /\
       duration c' = match truthy_time (end_time c') with
                     | Some e => e - start_time c'
                     | None => now - start_time c'
                     end /\
       (start_time c' <= match truthy_time (end_time c') with
                         | Some e => e | None => now end -> 0 <= duration c')) /\
  (forall (s : State) cid (c : CallData),
     call_data s !! cid = Some c -> get_call cid s = (Ok c, s)).
Proof.
  split; [|split].
  - intros send_ok uuid now p n d r s.
    exists (new_call uuid now p n d). split; [|reflexivity].
    destruct r as [did|e]; unfold start_call, bind, get, put, raise, ret; simpl.
    + match goal with |- context [broadcast send_ok ?m ?s0] =>
        destruct (broadcast_ok send_ok m s0) as (s' & -> & Hd & _ & _) end.
      simpl. rewrite Hd. apply lookup_insert_eq.
    + apply lookup_insert_eq.
  - intros send_ok s cid c st data now H.
    destruct (update_call_status_spec send_ok s cid c st data now H)
      as (s' & -> & Hd & _ & _).
    simpl. rewrite Hd, lookup_insert_eq. eexists. split; [reflexivity|].
    unfold compute_duration.
    destruct (apply_data (set_status c st) data); simpl.
    destruct (truthy_time end_time0); split; lia.
  - intros s cid c H. unfold get_call, bind, get, ret. simpl. by rewrite H.
Qed.

Lemma C5_duration_stored_on_update_witness :
  exists c, call_data one_call_state !! "c1"%string = Some c /\
  get_call "c1" one_call_state = (Ok c, one_call_state).
Proof.
  exists (new_call "c1" 100 "+15550001" "Ana" "+15559999").
  split; [reflexivity|].
  apply (proj2 (proj2 C5_duration_stored_on_update)). reflexivity.
Defined.

(** C3 (counterexample).  An [update_call_status] dict with the key
    [call_id] renames the record of "a" to "b"; after a call "b" is started
    and "a" is ended, "b" is both active and historical, and "a" is in
    neither partition although its [start_call] succeeded. *)
Lemma C3_renamed_id_in_both_partitions :
  active_mem "b" renamed_run = true /\ history_mem "b" renamed_run = true /\
  active_mem "a" renamed_run = false /\ history_mem "a" renamed_run = false.
Proof. vm_compute. repeat split. Qed.

(** C3 (amended).  For operation sequences in which each new uuid is
    unused and no [update_call_status] dict has the key [call_id]: no id
    is at any point both active and historical; an id that is in a
    partition stays in one of them through every later operation; and a
    successful [start_call] registers its id as active. *)
Theorem C3_partition_exclusive send_ok (s : State) :
  reachable send_ok s ->
  (forall k, ~ (active_mem k s = true /\ history_mem k s = true)) /\
  (forall s', steps send_ok s s' -> forall k,
     active_mem k s = true \/ history_mem k s = true ->
     (active_mem k s' = true \/ history_mem k s' = true) /\
     ~ (active_mem k s' = true /\ history_mem k s' = true)) /\
  (forall uuid now p n d r x s',
     start_call send_ok uuid now p n d r s = (Ok x, s') -> active_mem uuid s' = true).
Proof.
  intros Hr. split; [|split].
  - intros k [Ha Hh]. destruct (reachable_inv send_ok s Hr) as (_ & _ & I3).
    rewrite (I3 k Ha) in Hh. discriminate.
  - intros s' Hst k Hk.
    destruct (steps_preserve send_ok s s' Hst Hr) as (Hr' & Hp & _).
    split; [by apply Hp|].
    intros [Ha Hh]. destruct (reachable_inv send_ok s' Hr') as (_ & _ & I3).
    rewrite (I3 k Ha) in Hh. discriminate.
  - intros uuid now p n d r x s' Heq.
    destruct (start_call_shape send_ok uuid now p n d r s) as [Hd _].
    rewrite Heq in Hd. simpl in Hd. unfold active_mem. by rewrite Hd, lookup_insert_eq.
Qed.

Lemma C3_partition_exclusive_witness :
  reachable all_ok one_call_state /\
  (forall k, ~ (active_mem k one_call_state = true /\ history_mem k one_call_state = true)) /\
  (forall s', steps all_ok one_call_state s' -> forall k,
     active_mem k one_call_state = true \/ history_mem k one_call_state = true ->
     (active_mem k s' = true \/ history_mem k s' = true) /\
     ~ (active_mem k s' = true /\ history_mem k s' = true)) /\
  (forall uuid now p n d r x s',
     start_call all_ok uuid now p n d r one_call_state = (Ok x, s') ->
     active_mem uuid s' = true).
Proof.
  assert (Hr : reachable all_ok one_call_state) by (apply (reach_step all_ok (mkState ∅ [] [1%nat] [] [] [])
           (OpStartCall "c1" 100 "+15550001" "Ana" "+15559999" (ExtOk "d1")));
         [apply reach_init | split; reflexivity]).
  split; [exact Hr|].
  apply C3_partition_exclusive. exact Hr.
Defined.

(** C9 (counterexample).  An [update_call_status] dict with the key
    [call_id] changes the id stored in an active record. *)
Lemma C9_call_id_patched :
  exists c, call_data (run all_ok
      [OpStartCall "a" 100 "+15550001" "Ana" "+15559999" (ExtOk "d1");
       OpUpdateStatus "a" CONNECTED [PCallId "b"] 150] empty_state) !! "a"%string = Some c /\
    call_id c = "b"%string.
Proof. vm_compute. eexists. split; reflexivity. Qed.

(** C9 (amended).  For operation sequences in which each new uuid is
    unused and no [update_call_status] dict has the key [call_id]: every
    active record carries the id it is keyed under, historical records are
    never changed or removed (the history only grows at its end), ids
    are unique across active and historical records, and the id of a call
    never changes: after any further operations (the move of [end_call]
    included) a record with the same id is still active under the same key
    or stored in the history. *)
Theorem C9_call_id_stable_unique send_ok (s : State) :
  reachable send_ok s ->
  (forall k c, call_data s !! k = Some c -> call_id c = k) /\
  NoDup (map call_id (call_history s)) /\
  (forall k, active_mem k s = true -> history_mem k s = false) /\
  (forall s', steps send_ok s s' -> call_history s `prefix_of` call_history s') /\
  (forall s', steps send_ok s s' -> forall k c, call_data s !! k = Some c ->
     (exists c', call_data s' !! k = Some c' /\ call_id c' = call_id c) \/
     (exists c', In c' (call_history s') /\ call_id c' = call_id c)).
Proof.
  intros Hr. destruct (reachable_inv send_ok s Hr) as (I1 & I2 & I3).
  split; [done|]. split; [done|]. split; [done|]. split.
  - intros s' Hst. by destruct (steps_preserve send_ok s s' Hst Hr) as (_ & _ & Hpre).
  - intros s' Hst k c Hc.
    destruct (steps_preserve send_ok s s' Hst Hr) as (Hr' & Hp & _).
    destruct (reachable_inv send_ok s' Hr') as (J1 & _ & _).
    rewrite (I1 _ _ Hc).
    assert (Hk : present k s) by (left; unfold active_mem; by rewrite Hc).
    destruct (Hp k Hk) as [Ha|Hh].
    + left. unfold active_mem in Ha.
      destruct (call_data s' !! k) as [c'|] eqn:E; [|discriminate].
      exists c'. split; [done|]. exact (J1 _ _ E).
    + right. apply history_mem_iff, in_map_iff in Hh as (c' & Hid & Hin).
      by exists c'.
Qed.

Lemma C9_call_id_stable_unique_witness :
  reachable all_ok one_call_state /\
  (forall k c, call_data one_call_state !! k = Some c -> call_id c = k) /\
  NoDup (map call_id (call_history one_call_state)) /\
  (forall k, active_mem k one_call_state = true -> history_mem k one_call_state = false) /\
  (forall s', steps all_ok one_call_state s' ->
     call_history one_call_state `prefix_of` call_history s') /\
  (forall s', steps all_ok one_call_state s' -> forall k c,
     call_data one_call_state !! k = Some c ->
     (exists c', call_data s' !! k = Some c' /\ call_id c' = call_id c) \/
     (exists c', In c' (call_history s') /\ call_id c' = call_id c)).
Proof.
  assert (Hr : reachable all_ok one_call_state) by (apply (reach_step all_ok (mkState ∅ [] [1%nat] [] [] [])
           (OpStartCall "c1" 100 "+15550001" "Ana" "+15559999" (ExtOk "d1")));
         [apply reach_init | split; reflexivity]).
  split; [exact Hr|].
  apply C9_call_id_stable_unique. exact Hr.
Defined.

(** ** Further properties of the backend *)

(** [start_call] with a successful dispatch returns the new id and the
    dispatch id, registers a DIALING record with no end time, empty
    transcript and metrics, broadcasts one [call_started] event with that
    record, and issues one dispatch request for room ["outbound-call-" ++ id]
    whose metadata carries the phone number, transfer target and call id. *)
Theorem start_call_success send_ok uuid now phone name dest did
    (s : State) :
  let c := new_call uuid now phone name dest in
  exists s', start_call send_ok uuid now phone name dest (ExtOk did) s =
             (Ok (uuid, did), s') /\
    call_data s' = <[uuid := c]> (call_data s) /\
    call_history s' = call_history s /\
    events s' = events s ++ [CallStarted uuid c] /\
    ext_log s' = ext_log s ++ [CreateDispatch "outbound-caller"
                                (Some ("outbound-call-" ++ uuid)%string)
                                [("phone_number"%string, phone);
                                 ("transfer_to"%string, dest);
                                 ("call_id"%string, uuid)]] /\
    status c = DIALING /\ end_time c = None /\ start_time c = now /\
    transcript c = [] /\ audio_metrics c = [] /\ transfer_to c = Some dest.
Proof.
  intros c. unfold start_call, bind, get, put, ret. simpl.
  match goal with |- context [broadcast send_ok ?m ?s0] =>
    destruct (broadcast_full send_ok m s0) as (s' & -> & Hd & Hh & He & Hv) end.
  exists s'. rewrite Hd, Hh, He, Hv. simpl. repeat split.
Qed.

(** [update_call_status] on an active call never moves it: the record stays
    in the active partition whatever the status (ENDED and FAILED included),
    the history and the other calls are untouched, the stored status is the
    argument overridden by any [status] entries of [data], and exactly one
    [call_status_update] event is broadcast, carrying the argument status
    and the updated record. *)
Theorem update_call_status_active send_ok (s : State) cid (c : CallData) st data now :
  call_data s !! cid = Some c ->
  exists s' c', update_call_status send_ok cid st data now s = (Ok tt, s') /\
    call_data s' !! cid = Some c' /\ active_mem cid s' = true /\
    status c' = status_after st data /\
    (forall k, k <> cid -> call_data s' !! k = call_data s !! k) /\
    call_history s' = call_history s /\
    events s' = events s ++ [CallStatusUpdate cid st c'].
Proof.
  intros H.
  destruct (update_call_status_full send_ok s cid c st data now H)
    as (s' & -> & Hd & Hh & _ & Hv).
  eexists s', _. split; [reflexivity|].
  unfold active_mem. rewrite Hd, lookup_insert_eq.
  split; [reflexivity|]. split; [reflexivity|]. split; [|split; [|split]].
  - unfold set_duration, status_after.
    transitivity (status (apply_data (set_status c st) data));
      [by destruct (apply_data (set_status c st) data)|].
    rewrite status_apply_data. by destruct c.
  - intros k Hk. by apply lookup_insert_ne.
  - done.
  - exact Hv.
Qed.

Lemma update_call_status_active_witness :
  call_data one_call_state !! "c1"%string =
    Some (new_call "c1" 100 "+15550001" "Ana" "+15559999") /\
  exists s' c', update_call_status all_ok "c1" FAILED [] 130 one_call_state = (Ok tt, s') /\
    call_data s' !! "c1"%string = Some c' /\ active_mem "c1" s' = true /\
    status c' = status_after FAILED [] /\
    (forall k, k <> "c1"%string -> call_data s' !! k = call_data one_call_state !! k) /\
    call_history s' = call_history one_call_state /\
    events s' = events one_call_state ++ [CallStatusUpdate "c1" FAILED c'].
Proof.
  split; [reflexivity|].
  apply (update_call_status_active all_ok one_call_state "c1" (new_call "c1" 100 "+15550001" "Ana" "+15559999")). reflexivity.
Defined.

(** [add_transcript] on an active call appends the message at the end of
    the transcript (nothing else of the record changes), leaves the other
    calls and the history alone, and broadcasts one [transcript_update]
    event carrying only the message. *)
Theorem add_transcript_active send_ok (s : State) cid (c : CallData) m :
  call_data s !! cid = Some c ->
  exists s', add_transcript send_ok cid m s = (Ok tt, s') /\
    call_data s' = <[cid := set_transcript c (transcript c ++ [m])]> (call_data s) /\
    transcript (set_transcript c (transcript c ++ [m])) = transcript c ++ [m] /\
    call_history s' = call_history s /\
    events s' = events s ++ [TranscriptUpdate cid m].
Proof.
  intros H. unfold add_transcript, bind, get, put. simpl. rewrite H.
  match goal with |- context [broadcast send_ok ?msg ?s0] =>
    destruct (broadcast_full send_ok msg s0) as (s' & -> & Hd & Hh & _ & Hv) end.
  exists s'. rewrite Hd, Hh, Hv. split; [done|]. split; [done|].
  split; [by destruct c|done].
Qed.

Lemma add_transcript_active_witness :
  call_data one_call_state !! "c1"%string =
    Some (new_call "c1" 100 "+15550001" "Ana" "+15559999") /\
  exists s', add_transcript all_ok "c1" (mkTranscriptMessage "m1" CUSTOMER "hello" 120 1 "neutral" None)
               one_call_state = (Ok tt, s') /\
    call_data s' = <[ "c1"%string := set_transcript (new_call "c1" 100 "+15550001" "Ana" "+15559999")
        (transcript (new_call "c1" 100 "+15550001" "Ana" "+15559999") ++
         [mkTranscriptMessage "m1" CUSTOMER "hello" 120 1 "neutral" None])]>
      (call_data one_call_state) /\
    transcript (set_transcript (new_call "c1" 100 "+15550001" "Ana" "+15559999")
        (transcript (new_call "c1" 100 "+15550001" "Ana" "+15559999") ++
         [mkTranscriptMessage "m1" CUSTOMER "hello" 120 1 "neutral" None])) =
      transcript (new_call "c1" 100 "+15550001" "Ana" "+15559999") ++
        [mkTranscriptMessage "m1" CUSTOMER "hello" 120 1 "neutral" None] /\
    call_history s' = call_history one_call_state /\
    events s' = events one_call_state ++
      [TranscriptUpdate "c1" (mkTranscriptMessage "m1" CUSTOMER "hello" 120 1 "neutral" None)].
Proof.
  split; [reflexivity|].
  apply (add_transcript_active all_ok one_call_state "c1" (new_call "c1" 100 "+15550001" "Ana" "+15559999")). reflexivity.
Defined.

(** A successful [transfer_call] on an active call issues one SIP transfer
    request to ["tel:" ++ dest] for the call's room and phone number, sets
    the status to TRANSFERRING and [transfer_to] to [dest] (the id is kept),
    leaves the history alone, and broadcasts one [call_status_update]. *)
Theorem transfer_call_success send_ok (s : State) cid (c : CallData) dest u now :
  call_data s !! cid = Some c ->
  exists s' c', transfer_call send_ok cid dest (ExtOk u) now s = (Ok tt, s') /\
    call_data s' = <[cid := c']> (call_data s) /\
    status c' = TRANSFERRING /\ transfer_to c' = Some dest /\ call_id c' = call_id c /\
    call_history s' = call_history s /\
    events s' = events s ++ [CallStatusUpdate cid TRANSFERRING c'] /\
    ext_log s' = ext_log s ++ [TransferSIPParticipant (room_name c) (phone_number c)
                                 ("tel:" ++ dest)%string].
Proof.
  intros H. unfold transfer_call, bind, get, put, ret. simpl. rewrite H. simpl.
  match goal with |- context [update_call_status send_ok ?k ?st ?d ?t ?s0] =>
    destruct (update_call_status_full send_ok s0 k c st d t)
      as (s' & -> & Hd & Hh & He & Hv); [exact H|] end.
  eexists s', _. split; [reflexivity|]. rewrite Hd, Hh, He, Hv. simpl.
  split; [reflexivity|]. by destruct c.
Qed.

Lemma transfer_call_success_witness :
  call_data one_call_state !! "c1"%string =
    Some (new_call "c1" 100 "+15550001" "Ana" "+15559999") /\
  exists s' c', transfer_call all_ok "c1" "+15557777" (ExtOk tt) 150 one_call_state = (Ok tt, s') /\
    call_data s' = <["c1"%string := c']> (call_data one_call_state) /\
    status c' = TRANSFERRING /\ transfer_to c' = Some "+15557777"%string /\
    call_id c' = call_id (new_call "c1" 100 "+15550001" "Ana" "+15559999") /\
    call_history s' = call_history one_call_state /\
    events s' = events one_call_state ++ [CallStatusUpdate "c1" TRANSFERRING c'] /\
    ext_log s' = ext_log one_call_state ++
      [TransferSIPParticipant (room_name (new_call "c1" 100 "+15550001" "Ana" "+15559999"))
         (phone_number (new_call "c1" 100 "+15550001" "Ana" "+15559999"))
         ("tel:" ++ "+15557777")%string].
Proof.
  split; [reflexivity|].
  apply (transfer_call_success all_ok one_call_state "c1" (new_call "c1" 100 "+15550001" "Ana" "+15559999")). reflexivity.
Defined.

(** A successful [end_call] on an active call removes it from the active
    partition and appends it to the end of the history with status ENDED,
    end time [now] and duration [now - start_time] (the id, transcript,
    metrics and transfer target kept); it issues one room deletion request
    and broadcasts one [call_status_update] with the ended record. *)
Theorem end_call_success send_ok (s : State) cid (c : CallData) u now :
  call_data s !! cid = Some c ->
  exists s' c', end_call send_ok cid (ExtOk u) now s = (Ok tt, s') /\
    call_data s' = delete cid (call_data s) /\
    call_history s' = call_history s ++ [c'] /\
    status c' = ENDED /\ end_time c' = Some now /\ duration c' = now - start_time c /\
    call_id c' = call_id c /\ transcript c' = transcript c /\
    audio_metrics c' = audio_metrics c /\ transfer_to c' = transfer_to c /\
    events s' = events s ++ [CallStatusUpdate cid ENDED c'] /\
    ext_log s' = ext_log s ++ [DeleteRoom (room_name c)].
Proof. apply end_call_ok_spec. Qed.

Lemma end_call_success_witness :
  call_data one_call_state !! "c1"%string = Some (new_call "c1" 100 "+15550001" "Ana" "+15559999") /\
  exists s' c', end_call all_ok "c1" (ExtOk tt) 160 one_call_state = (Ok tt, s') /\
    call_data s' = delete "c1"%string (call_data one_call_state) /\
    call_history s' = call_history one_call_state ++ [c'] /\
    status c' = ENDED /\ end_time c' = Some 160 /\ duration c' = 160 - start_time (new_call "c1" 100 "+15550001" "Ana" "+15559999") /\
    call_id c' = call_id (new_call "c1" 100 "+15550001" "Ana" "+15559999") /\ transcript c' = transcript (new_call "c1" 100 "+15550001" "Ana" "+15559999") /\
    audio_metrics c' = audio_metrics (new_call "c1" 100 "+15550001" "Ana" "+15559999") /\ transfer_to c' = transfer_to (new_call "c1" 100 "+15550001" "Ana" "+15559999") /\
    events s' = events one_call_state ++ [CallStatusUpdate "c1" ENDED c'] /\
    ext_log s' = ext_log one_call_state ++ [DeleteRoom (room_name (new_call "c1" 100 "+15550001" "Ana" "+15559999"))].
Proof.
  split; [reflexivity|].
  apply (end_call_success all_ok one_call_state "c1" (new_call "c1" 100 "+15550001" "Ana" "+15559999")). reflexivity.
Defined.

(** [end_call] failures: on an id that is not active it fails with
    NotFound and changes nothing; when the room deletion fails it raises
    the delegated error and the only change is the one deletion request:
    the record stays active, without end time, and nothing is broadcast. *)
Theorem end_call_failures send_ok (s : State) cid (c : CallData) res e now :
  (call_data s !! cid = None -> end_call send_ok cid res now s = (Error NotFound, s)) /\
  (call_data s !! cid = Some c ->
   end_call send_ok cid (ExtFail e) now s =
   (Error (DelegatedActionFailure e), log_ext s (DeleteRoom (room_name c)))).
Proof.
  split; intros H; unfold end_call, bind, get, put, raise; simpl; by rewrite H.
Qed.

Lemma end_call_failures_witness :
  (call_data one_call_state !! "zz"%string = None /\
   end_call all_ok "zz" (ExtOk tt) 160 one_call_state = (Error NotFound, one_call_state)) /\
  (call_data one_call_state !! "c1"%string = Some (new_call "c1" 100 "+15550001" "Ana" "+15559999") /\
   end_call all_ok "c1" (ExtFail "room busy") 160 one_call_state =
   (Error (DelegatedActionFailure "room busy"),
    log_ext one_call_state (DeleteRoom (room_name (new_call "c1" 100 "+15550001" "Ana" "+15559999"))))).
Proof.
  destruct (end_call_failures all_ok one_call_state "zz" (new_call "c1" 100 "+15550001" "Ana" "+15559999") (ExtOk tt) "room busy" 160)
    as [H1 _].
  destruct (end_call_failures all_ok one_call_state "c1" (new_call "c1" 100 "+15550001" "Ana" "+15559999") (ExtOk tt) "room busy" 160)
    as [_ H2].
  split; (split; [reflexivity|]); [apply H1 | apply H2]; reflexivity.
Defined.

(** After [end_call] succeeds on an active call whose record carries its
    key as id and whose id no historical record has, [get_call] on that
    id finds the ended record in the history: status ENDED, end time
    [now], same id.  (Both conditions hold in every state reached with
    fresh uuids and no [call_id] patch; a patched [call_id] breaks them.) *)
Theorem get_call_after_end_call send_ok (s : State) cid (c : CallData) u now :
  call_data s !! cid = Some c -> call_id c = cid -> history_mem cid s = false ->
  exists c', get_call cid (snd (end_call send_ok cid (ExtOk u) now s)) =
             (Ok c', snd (end_call send_ok cid (ExtOk u) now s)) /\
    status c' = ENDED /\ end_time c' = Some now /\ call_id c' = cid.
Proof.
  intros H Hc Hfresh.
  destruct (end_call_ok_spec send_ok s cid c u now H)
    as (s' & c' & -> & Hd & Hh & Hst & Het & _ & Hid & _).
  simpl. exists c'. unfold get_call, bind, get, ret. simpl.
  rewrite Hd, lookup_delete_eq, Hh.
  rewrite Hc in Hid.
  by rewrite find_snoc_fresh.
Qed.

Lemma get_call_after_end_call_witness :
  call_data one_call_state !! "c1"%string = Some (new_call "c1" 100 "+15550001" "Ana" "+15559999") /\
  call_id (new_call "c1" 100 "+15550001" "Ana" "+15559999") = "c1"%string /\ history_mem "c1" one_call_state = false /\
  exists c', get_call "c1" (snd (end_call all_ok "c1" (ExtOk tt) 160 one_call_state)) =
             (Ok c', snd (end_call all_ok "c1" (ExtOk tt) 160 one_call_state)) /\
    status c' = ENDED /\ end_time c' = Some 160 /\ call_id c' = "c1"%string.
Proof.
  split; [reflexivity|]. split; [reflexivity|]. split; [reflexivity|].
  apply (get_call_after_end_call all_ok one_call_state "c1" (new_call "c1" 100 "+15550001" "Ana" "+15559999"));
    reflexivity.
Defined.

(** [get_statistics] never raises: the division guard
    [if total_calls > 0] is always taken on a non-empty history, so the
    [ZeroDivisionError] branch is unreachable, and the state is left as
    it is. *)
Theorem get_statistics_never_raises (s : State) :
  exists st, get_statistics_m s = (Ok st, s).
Proof.
  unfold get_statistics_m, get_statistics, bind, get. simpl.
  destruct (Z.eqb_spec (Z.of_nat (length (call_history s))) 0) as [E|E];
    [by eexists|].
  destruct (Z.ltb_spec 0 (Z.of_nat (length (call_history s)))); [|lia].
  rewrite !qdiv_nonzero by lia. by eexists.
Qed.

(** On a non-empty history, [get_statistics] reports the number of
    historical calls, the number of active calls, the number of
    historical calls with outcome "transferred", the sum of their
    durations, their mean, and a success rate between 0 and 100. *)
Theorem get_statistics_nonempty (s : State) :
  call_history s <> [] ->
  exists st, get_statistics s = Some st /\
    total_calls st = Z.of_nat (length (call_history s)) /\
    active_calls st = Z.of_nat (size (call_data s)) /\
    successful_transfers st = Z.of_nat (length (List.filter
        (fun c => bool_decide (outcome c = Some "transferred"%string)) (call_history s))) /\
    total_duration st = Some (sum_Z (map duration (call_history s))) /\
    average_duration st = (inject_Z (sum_Z (map duration (call_history s))) /
                           inject_Z (Z.of_nat (length (call_history s))))%Q /\
    (0 <= success_rate st <= 100)%Q.
Proof.
  intros Hne. unfold get_statistics.
  assert (Hl : (0 < length (call_history s))%nat)
    by (destruct (call_history s); [done | simpl; lia]).
  destruct (Z.eqb_spec (Z.of_nat (length (call_history s))) 0) as [E|E]; [lia|].
  destruct (Z.ltb_spec 0 (Z.of_nat (length (call_history s)))); [|lia].
  rewrite !qdiv_nonzero by lia.
  eexists. split; [reflexivity|]. simpl.
  do 5 (split; [reflexivity|]).
  apply rate_bounds; [lia | | lia].
  apply inj_le, List.filter_length_le.
Qed.

Lemma get_statistics_nonempty_witness :
  call_history (snd (end_call all_ok "c1" (ExtOk tt) 160 one_call_state)) <> [] /\
  exists st, get_statistics (snd (end_call all_ok "c1" (ExtOk tt) 160 one_call_state)) = Some st /\
    total_calls st = 1 /\ active_calls st = 0 /\ successful_transfers st = 0 /\
    total_duration st = Some 60 /\ average_duration st = (inject_Z 60 / inject_Z 1)%Q /\
    (0 <= success_rate st <= 100)%Q.
Proof.
  split; [vm_compute; discriminate|].
  apply (get_statistics_nonempty (snd (end_call all_ok "c1" (ExtOk tt) 160 one_call_state))).
  vm_compute. discriminate.
Defined.

(** With a negative limit [-k], [get_calls] returns
    [call_history[k:]]: the history without its first [k] records (empty
    when [k] is at least its length), still with the full count. *)
Theorem get_calls_negative (s : State) (k : Z) :
  0 < k ->
  get_calls (- k) s =
  (Ok (drop (Z.to_nat k) (call_history s), Z.of_nat (length (call_history s))), s).
Proof.
  intros Hk. unfold get_calls, py_slice_from, bind, get, ret. simpl.
  rewrite Z.opp_involutive.
  destruct (Z.ltb_spec k 0); [lia|].
  destruct (Z.le_ge_cases k (Z.of_nat (length (call_history s)))).
  - rewrite Z.min_l by lia. reflexivity.
  - rewrite Z.min_r by lia. rewrite Nat2Z.id, !drop_ge by lia. reflexivity.
Qed.

Lemma get_calls_negative_witness :
  0 < 1 /\
  get_calls (-1) (snd (end_call all_ok "c1" (ExtOk tt) 160 one_call_state)) =
  (Ok ([], 1), snd (end_call all_ok "c1" (ExtOk tt) 160 one_call_state)).
Proof.
  split; [lia|].
  apply (get_calls_negative (snd (end_call all_ok "c1" (ExtOk tt) 160 one_call_state)) 1).
  lia.
Defined.

(** An accepted [connect] registers the observer and builds its snapshot:
    every active call, the last 50 historical records and the statistics
    of the unchanged registry (whose computation cannot fail).  The
    snapshot is delivered when its send succeeds; otherwise [connect]
    raises, but the observer stays registered.  Nothing is broadcast. *)
Theorem connect_snapshot (o : Obs) sent (s : State) :
  exists st, get_statistics s = Some st /\
  connect o true sent s =
  (if sent then Some (mkInitialState (call_data s) (lastn 50 (call_history s)) st) else None,
   set_connections s (set_add o (active_connections s))).
Proof. apply connect_accepted_spec. Qed.

(** [connect] adds the observer to the set of connections once: the set
    afterwards is the old set plus the observer, and it stays free of
    duplicates even when the observer was already there.  The registry
    and the event log are not touched. *)
Theorem connect_registers_once (o : Obs) sent (s : State) :
  NoDup (active_connections s) ->
  let s' := snd (connect o true sent s) in
  NoDup (active_connections s') /\
  (forall x, x ∈ active_connections s' <-> x = o \/ x ∈ active_connections s) /\
  call_data s' = call_data s /\ call_history s' = call_history s /\ events s' = events s.
Proof.
  intros Hnd. destruct (connect_accepted_spec o sent s) as (st & _ & ->). simpl.
  destruct (set_add_spec o (active_connections s)) as [H1 H2].
  split; [by apply H2|]. split; [exact H1|]. done.
Qed.

Lemma connect_registers_once_witness :
  NoDup (active_connections one_call_state) /\
  let s' := snd (connect 1%nat true true one_call_state) in
  NoDup (active_connections s') /\
  (forall x, x ∈ active_connections s' <-> x = 1%nat \/ x ∈ active_connections one_call_state) /\
  call_data s' = call_data one_call_state /\ call_history s' = call_history one_call_state /\
  events s' = events one_call_state.
Proof.
  assert (Hnd : NoDup (active_connections one_call_state)).
  { simpl. apply NoDup_singleton. }
  split; [exact Hnd|]. apply (connect_registers_once 1%nat true one_call_state). exact Hnd.
Defined.

(** When the initial-state send fails, [websocket_endpoint] ends (the
    exception escapes [connect], outside the [try]) without calling
    [disconnect]: no message is handled, and the observer is left
    registered in the set of connections. *)
Theorem websocket_failed_initial_send (o : Obs) evs (s : State) :
  websocket_endpoint o true false evs s =
    (None, 0%nat, set_connections s (set_add o (active_connections s))) /\
  o ∈ active_connections (set_connections s (set_add o (active_connections s))).
Proof.
  destruct (connect_accepted_spec o false s) as (st & _ & Hc).
  unfold websocket_endpoint. rewrite Hc. split; [done|].
  simpl. apply (proj1 (set_add_spec o (active_connections s))). by left.
Qed.

(** A session of [websocket_endpoint] whose messages all get answered
    and which ends with a disconnect: it sends one "pong" per "ping"
    message and none for other messages, and it removes the observer
    and only it from the set of connections.  The registry and the
    event log are as before the session. *)
Theorem websocket_session_pongs (o : Obs) tys (s : State) :
  exists d s2,
    websocket_endpoint o true true (map (fun t => Recv t true) tys ++ [RecvFails]) s =
      (Some d, length (List.filter (fun t => bool_decide (t = Some "ping"%string)) tys), s2) /\
    (o ∉ active_connections s2) /\
    (forall x, x <> o -> (x ∈ active_connections s2 <-> x ∈ active_connections s)) /\
    call_data s2 = call_data s /\ call_history s2 = call_history s /\ events s2 = events s.
Proof.
  destruct (connect_accepted_spec o true s) as (st & _ & Hc).
  unfold websocket_endpoint. rewrite Hc, serve_pings.
  eexists _, _. split; [reflexivity|].
  split; [rewrite disconnect_elem; naive_solver|].
  split; [|done].
  intros x Hx. rewrite disconnect_elem. simpl.
  rewrite (proj1 (set_add_spec o (active_connections s))). naive_solver.
Qed.

(** The receive loop of [websocket_endpoint] changes nothing but the
    connection set, and there only by removing its own observer: the
    state after it is either the state before or that state with the
    observer disconnected. *)
Theorem serve_only_disconnects (o : Obs) evs n (s : State) :
  snd (serve o evs n s) = s \/ snd (serve o evs n s) = disconnect o s.
Proof. apply serve_effect. Qed.

(** [disconnect] removes exactly the given observer: it is absent
    afterwards, every other observer keeps its membership, a second
    [disconnect] changes nothing, and the registry and event log are
    untouched. *)
Theorem disconnect_removes (o : Obs) (s : State) :
  (o ∉ active_connections (disconnect o s)) /\
  (forall x, x <> o -> (x ∈ active_connections (disconnect o s) <-> x ∈ active_connections s)) /\
  disconnect o (disconnect o s) = disconnect o s /\
  call_data (disconnect o s) = call_data s /\ call_history (disconnect o s) = call_history s /\
  events (disconnect o s) = events s.
Proof.
  split; [rewrite disconnect_elem; naive_solver|].
  split; [intros x Hx; rewrite disconnect_elem; naive_solver|].
  split; [|done].
  unfold disconnect at 1. rewrite filter_not_o; [by destruct s|].
  rewrite disconnect_elem. naive_solver.
Qed.

(** Connecting an observer that is not registered and then disconnecting
    it gives back the state as it was (a no-op overall). *)
Theorem connect_disconnect_roundtrip (o : Obs) sent (s : State) :
  o ∉ active_connections s ->
  disconnect o (snd (connect o true sent s)) = s.
Proof.
  intros Hn. destruct (connect_accepted_spec o sent s) as (st & _ & ->). simpl.
  unfold disconnect, set_connections, set_add. simpl.
  assert (E : existsb (Nat.eqb o) (active_connections s) = false)
    by (by apply existsb_nat_false).
  rewrite E, List.filter_app, filter_not_o by done. simpl.
  rewrite Nat.eqb_refl. simpl. rewrite app_nil_r. by destruct s.
Qed.

Lemma connect_disconnect_roundtrip_witness :
  (2%nat ∉ active_connections one_call_state) /\
  disconnect 2%nat (snd (connect 2%nat true false one_call_state)) = one_call_state.
Proof.
  assert (Hn : 2%nat ∉ active_connections one_call_state).
  { simpl. rewrite list_elem_of_singleton. lia. }
  split; [exact Hn|]. apply (connect_disconnect_roundtrip 2%nat false one_call_state). exact Hn.
Defined.

(** One round of [simulate_call_updates], over the active calls in the
    dict's iteration order (every active id once): each call whose status
    is CONNECTED or TALKING gets one generated sample appended to its
    metric window; every other active call is unchanged; no call is added
    or removed and the history is untouched. *)
Theorem simulate_tick_live_calls send_ok order gen (s : State) :
  NoDup order -> (forall k, is_Some (call_data s !! k) -> k ∈ order) ->
  call_history (simulate_tick send_ok order gen s) = call_history s /\
  forall k, call_data (simulate_tick send_ok order gen s) !! k =
    match call_data s !! k with
    | Some c => Some (if live_status (status c)
                      then set_audio_metrics c (append_metric (audio_metrics c) (gen k))
                      else c)
    | None => None
    end.
Proof.
  intros Hnd Hcov. destruct (simulate_tick_general send_ok order gen s Hnd) as [H1 H2].
  split; [exact H1|]. intros k. rewrite H2.
  destruct (call_data s !! k) eqn:Hk; [|done].
  rewrite bool_decide_eq_true_2; [done|]. apply Hcov. by rewrite Hk.
Qed.

Lemma simulate_tick_live_calls_witness :
  let s := snd (update_call_status all_ok "c1" CONNECTED [] 120 one_call_state) in
  NoDup ["c1"%string] /\ (forall k, is_Some (call_data s !! k) -> k ∈ ["c1"%string]) /\
  call_history (simulate_tick all_ok ["c1"%string] (fun _ => sample 1) s) = call_history s /\
  forall k, call_data (simulate_tick all_ok ["c1"%string] (fun _ => sample 1) s) !! k =
    match call_data s !! k with
    | Some c => Some (if live_status (status c)
                      then set_audio_metrics c (append_metric (audio_metrics c) (sample 1))
                      else c)
    | None => None
    end.
Proof.
  intros s.
  assert (Hnd : NoDup ["c1"%string]) by apply NoDup_singleton.
  assert (Hcov : forall k, is_Some (call_data s !! k) -> k ∈ ["c1"%string]).
  { intros k [c Hc]. rewrite list_elem_of_singleton.
    destruct (decide (k = "c1"%string)) as [|Hk]; [done|].
    unfold s in Hc.
    destruct (update_call_status_full all_ok one_call_state "c1" (new_call "c1" 100 "+15550001" "Ana" "+15559999") CONNECTED [] 120)
      as (s' & E & Hd & _); [reflexivity|].
    rewrite E in Hc. simpl in Hc.
    assert (E1 : call_data one_call_state = <["c1"%string := (new_call "c1" 100 "+15550001" "Ana" "+15559999")]> ∅) by reflexivity.
    rewrite Hd, E1, !lookup_insert_ne, lookup_empty in Hc by congruence.
    discriminate. }
  split; [exact Hnd|]. split; [exact Hcov|].
  apply (simulate_tick_live_calls all_ok ["c1"%string] (fun _ => sample 1) s Hnd Hcov).
Defined.

(** [get_call] never changes the state, and it fails with NotFound
    exactly when the id is neither an active call nor the id of a
    historical record. *)
Theorem get_call_not_found (cid : string) (s : State) :
  snd (get_call cid s) = s /\
  (fst (get_call cid s) = Error NotFound <->
   active_mem cid s = false /\ history_mem cid s = false).
Proof.
  unfold get_call, active_mem, history_mem, bind, get, ret, raise. simpl.
  destruct (call_data s !! cid); simpl; [split; [done|]; split; [discriminate|naive_solver]|].
  destruct (List.find (fun c => String.eqb (call_id c) cid) (call_history s)) eqn:E; simpl.
  - split; [done|]. split; [discriminate|].
    intros [_ H]. apply find_none_existsb in H. congruence.
  - split; [done|]. split; [|done]. intros _. split; [done|].
    by apply find_none_existsb.
Qed.

(** When every active record carries its key as id (true in every state
    reached with fresh uuids and no [call_id] patch), a record returned by
    [get_call] (active or historical) carries the requested id. *)
Theorem get_call_returns_id (s : State) cid (c : CallData) :
  (forall k c0, call_data s !! k = Some c0 -> call_id c0 = k) ->
  fst (get_call cid s) = Ok c -> call_id c = cid.
Proof.
  intros I1.
  unfold get_call, bind, get, ret, raise. simpl.
  destruct (call_data s !! cid) eqn:Ha; simpl.
  - intros [= <-]. exact (I1 _ _ Ha).
  - destruct (List.find (fun c => String.eqb (call_id c) cid) (call_history s)) eqn:E;
      simpl; [|discriminate].
    intros [= <-]. apply List.find_some in E as [_ E]. by apply String.eqb_eq.
Qed.

Lemma get_call_returns_id_witness :
  (forall k c0, call_data one_call_state !! k = Some c0 -> call_id c0 = k) /\
  fst (get_call "c1" one_call_state) = Ok (new_call "c1" 100 "+15550001" "Ana" "+15559999") /\
  call_id (new_call "c1" 100 "+15550001" "Ana" "+15559999") = "c1"%string.
Proof.
  assert (I1 : forall k c0, call_data one_call_state !! k = Some c0 -> call_id c0 = k).
  { intros k c0 Hk.
    assert (E1 : call_data one_call_state = <["c1"%string := (new_call "c1" 100 "+15550001" "Ana" "+15559999")]> ∅) by reflexivity.
    rewrite E1 in Hk. destruct (decide (k = "c1"%string)) as [->|Hne].
    - rewrite lookup_insert_eq in Hk. injection Hk as <-. reflexivity.
    - rewrite lookup_insert_ne, lookup_empty in Hk by congruence. discriminate. }
  split; [exact I1|]. split; [reflexivity|].
  apply (get_call_returns_id one_call_state "c1" (new_call "c1" 100 "+15550001" "Ana" "+15559999") I1). reflexivity.
Defined.

(** Successive [add_transcript] calls on an active call compose: the
    stored transcript is the old one followed by the messages in call
    order, nothing else in the registry changes, and one
    [transcript_update] per message is broadcast in the same order. *)
Theorem add_transcripts_in_order send_ok (s : State) cid (c : CallData) ms :
  call_data s !! cid = Some c ->
  let s' := fold_left (fun st m => snd (add_transcript send_ok cid m st)) ms s in
  call_data s' = <[cid := set_transcript c (transcript c ++ ms)]> (call_data s) /\
  call_history s' = call_history s /\
  events s' = events s ++ map (TranscriptUpdate cid) ms.
Proof.
  revert s c. induction ms as [|m ms IH]; intros s c H; simpl.
  - rewrite !app_nil_r. split; [|split; reflexivity].
    replace (set_transcript c (transcript c)) with c by (by destruct c).
    by rewrite insert_id.
  - destruct (add_transcript_data send_ok s cid c m H) as (Hd & Hh & He).
    assert (H1 : call_data (snd (add_transcript send_ok cid m s)) !! cid =
                 Some (set_transcript c (transcript c ++ [m])))
      by (rewrite Hd; apply lookup_insert_eq).
    destruct (IH _ _ H1) as (D & E1 & E2). split; [|split].
    + rewrite D, Hd, insert_insert_eq. f_equal.
      destruct c. simpl. by rewrite <- app_assoc.
    + by rewrite E1.
    + by rewrite E2, He, <- app_assoc.
Qed.

Lemma add_transcripts_in_order_witness :
  call_data one_call_state !! "c1"%string =
    Some (new_call "c1" 100 "+15550001" "Ana" "+15559999") /\
  let ms := [mkTranscriptMessage "m1" AGENT "hi" 110 1 "neutral" None;
             mkTranscriptMessage "m2" CUSTOMER "hello" 111 1 "neutral" None] in
  let s' := fold_left (fun st m => snd (add_transcript all_ok "c1" m st)) ms one_call_state in
  call_data s' = <["c1"%string := set_transcript (new_call "c1" 100 "+15550001" "Ana" "+15559999")
                   (transcript (new_call "c1" 100 "+15550001" "Ana" "+15559999") ++ ms)]>
                 (call_data one_call_state) /\
  call_history s' = call_history one_call_state /\
  events s' = events one_call_state ++ map (TranscriptUpdate "c1") ms.
Proof.
  split; [reflexivity|].
  apply (add_transcripts_in_order all_ok one_call_state "c1"
           (new_call "c1" 100 "+15550001" "Ana" "+15559999")).
  reflexivity.
Defined.
